(** * The media relay of E-T-Backend

    The relay bridges a telephony media stream (the carrier leg, [ws]) and a
    conversational agent (the agent leg, [elevenLabsWs]).  This file embeds
    the callbacks registered in [app.ws("/media-stream", ...)] of
    src/index.js, and those of the earlier revision kept in
    src/unnamed/part_000, together with the parts of the platform they
    call: property access and truthiness of JavaScript values,
    [JSON.stringify] of the object literals the relay builds, the base64
    codec of [Buffer], and the [readyState] of a socket.  The HTTP routes
    of the two files are not part of the relay; they have a module of their
    own. *)

From Stdlib Require Import String Ascii List Bool NArith ZArith Lia PrimFloat.
From Stdlib Require Import DecimalString.
From Stdlib Require Strings.Byte.
From Stdlib Require Import Init.Byte.
Import ListNotations.

Set Warnings "-register-all".

Local Open Scope string_scope.
Local Open Scope N_scope.

(** ** Strings

    A JavaScript string is a sequence of UTF-16 code units.  A string is
    held here as the bytes of its UTF-8 form, which is what the string
    literals of the source are; a surrogate that stands alone, which UTF-8
    has no form for, is held as the three bytes a code point of its value
    would take.  Comparing, concatenating and testing for emptiness are
    the same on the bytes as on the code units.  Where the platform
    looks at the code units themselves (the base64 decoder of [Buffer],
    indexing and spreading a string), they are read off the bytes. *)

Module UTF16.

(** The six bits a continuation byte carries. *)
Definition continuation (b : ascii) : N := N_of_ascii b mod 64.

(** The code units of a string: one unit for a sequence of one, two or
    three bytes, and the two surrogates of a pair for a sequence of four.
    A byte that starts no sequence, and a sequence that is cut short, are
    the bytes of no string; such a byte is read as a unit of its own. *)
Fixpoint code_units (s : string) : list N :=
  match s with
  | EmptyString => []
  | String b0 rest =>
      let k := N_of_ascii b0 in
      if k <? 192 then k :: code_units rest
      else
        match rest with
        | EmptyString => [k]
        | String b1 rest1 =>
            if k <? 224
            then (k mod 32 * 64 + continuation b1) :: code_units rest1
            else
              match rest1 with
              | EmptyString => k :: code_units rest
              | String b2 rest2 =>
                  if k <? 240
                  then (k mod 16 * 4096 + continuation b1 * 64 + continuation b2)
                         :: code_units rest2
                  else
                    match rest2 with
                    | EmptyString => k :: code_units rest
                    | String b3 rest3 =>
                        let v := k mod 8 * 262144 + continuation b1 * 4096
                                 + continuation b2 * 64 + continuation b3 - 65536 in
                        (55296 + v / 1024) :: (56320 + v mod 1024) :: code_units rest3
                    end
              end
        end
  end.

(** The string of one code unit ([String.fromCharCode(u)]). *)
Definition of_code_unit (u : N) : string :=
  if u <? 128 then String (ascii_of_N u) ""
  else if u <? 2048
  then String (ascii_of_N (192 + u / 64)) (String (ascii_of_N (128 + u mod 64)) "")
  else String (ascii_of_N (224 + u / 4096))
         (String (ascii_of_N (128 + u / 64 mod 64))
            (String (ascii_of_N (128 + u mod 64)) "")).

(** [s[i]] for each index of the string, first to last: one string of a
    single code unit per code unit. *)
Definition characters (s : string) : list string :=
  map of_code_unit (code_units s).

(** A string of ASCII characters only (code units below 128). *)
Fixpoint is_ascii (s : string) : bool :=
  match s with
  | EmptyString => true
  | String c rest => (N_of_ascii c <? 128) && is_ascii rest
  end.

End UTF16.

(** ** Base64, as [Buffer.from(s, "base64")] and [buf.toString("base64")] do it *)

Module Base64.

(** The character of a 6-bit group in the standard alphabet. *)
Definition base64_char (n : N) : ascii :=
  if n <? 26 then ascii_of_N (65 + n)
  else if n <? 52 then ascii_of_N (97 + (n - 26))
  else if n <? 62 then ascii_of_N (48 + (n - 52))
  else if n =? 62 then "+"%char
  else "/"%char.

(** The decoder's table: the standard alphabet, and [-] and [_] of the
    URL-safe one; every other character has no value. *)
Definition unbase64 (c : ascii) : option N :=
  let k := N_of_ascii c in
  if (65 <=? k) && (k <=? 90) then Some (k - 65)
  else if (97 <=? k) && (k <=? 122) then Some (k - 97 + 26)
  else if (48 <=? k) && (k <=? 57) then Some (k - 48 + 52)
  else if (k =? 43) || (k =? 45) then Some 62
  else if (k =? 47) || (k =? 95) then Some 63
  else None.

Definition byte_of_N (n : N) : byte :=
  match Byte.of_N n with
  | Some b => b
  | None => x00
  end.

(** What the decoder sees of a string: the low byte of each code unit
    (the decoder of Node looks a code unit up in its table of 256 entries
    after a cast to [uint8_t]). *)
Definition low_bytes (s : string) : string :=
  string_of_list_ascii
    (map (fun u => ascii_of_N (u mod 256)) (UTF16.code_units s)).

(** The 6-bit groups the decoder reads off the low bytes: a byte without a
    value is skipped, and the first [=] ends the input. *)
Fixpoint sextets (s : string) : list N :=
  match s with
  | EmptyString => []
  | String c rest =>
      if Ascii.eqb c "="
      then []
      else match unbase64 c with
           | Some n => n :: sextets rest
           | None => sextets rest
           end
  end.

(** Four groups make three bytes; a last group of two or three makes one
    or two bytes, and a single left-over group is dropped. *)
Fixpoint bytes_of_sextets (l : list N) : list byte :=
  match l with
  | s0 :: s1 :: s2 :: s3 :: rest =>
      byte_of_N (s0 * 4 + s1 / 16)
        :: byte_of_N ((s1 mod 16) * 16 + s2 / 4)
        :: byte_of_N ((s2 mod 4) * 64 + s3)
        :: bytes_of_sextets rest
  | [s0; s1; s2] =>
      [byte_of_N (s0 * 4 + s1 / 16); byte_of_N ((s1 mod 16) * 16 + s2 / 4)]
  | [s0; s1] => [byte_of_N (s0 * 4 + s1 / 16)]
  | _ => []
  end.

(** [Buffer.from(s, "base64")] *)
Definition Buffer_from_base64 (s : string) : list byte :=
  bytes_of_sextets (sextets (low_bytes s)).

(** [buf.toString("base64")]: standard alphabet, padded with [=]. *)
Fixpoint toString_base64 (buf : list byte) : string :=
  match buf with
  | [] => ""
  | [a] =>
      let a := Byte.to_N a in
      String (base64_char (a / 4))
        (String (base64_char ((a mod 4) * 16)) "==")
  | [a; b] =>
      let a := Byte.to_N a in
      let b := Byte.to_N b in
      String (base64_char (a / 4))
        (String (base64_char ((a mod 4) * 16 + b / 16))
           (String (base64_char ((b mod 16) * 4)) "="))
  | a :: b :: c :: rest =>
      let a := Byte.to_N a in
      let b := Byte.to_N b in
      let c := Byte.to_N c in
      String (base64_char (a / 4))
        (String (base64_char ((a mod 4) * 16 + b / 16))
           (String (base64_char ((b mod 16) * 4 + c / 64))
              (String (base64_char (c mod 64)) (toString_base64 rest))))
  end.

(** A character of the standard alphabet. *)
Definition is_base64_char (c : ascii) : bool :=
  let k := N_of_ascii c in
  ((65 <=? k) && (k <=? 90)) || ((97 <=? k) && (k <=? 122))
  || ((48 <=? k) && (k <=? 57)) || (k =? 43) || (k =? 47).

(** Does the character stand for a group that is a multiple of [m], that
    is, whose low bits (4 bits for [m = 16], 2 bits for [m = 4]) are zero? *)
Definition low_bits_zero (m : N) (c : ascii) : bool :=
  match unbase64 c with
  | Some n => n mod m =? 0
  | None => false
  end.

(** A valid base64 string (RFC 4648, section 4): groups of four characters
    of the standard alphabet, the last group possibly padded with one or
    two [=], the unused bits before the padding being zero. *)
Fixpoint is_base64 (s : string) : bool :=
  match s with
  | EmptyString => true
  | String c0 (String c1 (String c2 (String c3 rest))) =>
      is_base64_char c0 && is_base64_char c1 &&
      match rest with
      | EmptyString =>
          if Ascii.eqb c3 "="
          then if Ascii.eqb c2 "="
               then low_bits_zero 16 c1
               else is_base64_char c2 && low_bits_zero 4 c2
          else is_base64_char c2 && is_base64_char c3
      | _ => is_base64_char c2 && is_base64_char c3 && is_base64 rest
      end
  | _ => false
  end.

(** What the decoder's table says about a character of the standard
    alphabet, checked on each of the 256 characters. *)
Definition table_agrees (c : ascii) : bool :=
  if is_base64_char c
  then match unbase64 c with
       | Some n => (n <? 64) && Ascii.eqb (base64_char n) c && negb (Ascii.eqb c "=")
       | None => false
       end
  else true.

(** What the encoder's alphabet says about a 6-bit group, checked on each
    of the 64 groups. *)
Definition alphabet_agrees (n : N) : bool :=
  is_base64_char (base64_char n)
  && match unbase64 (base64_char n) with
     | Some m => m =? n
     | None => false
     end
  && negb (Ascii.eqb (base64_char n) "=").

End Base64.

(** ** JavaScript values, as far as the relay looks at them *)

Module JS.

(** What [JSON.parse] returns.  An object holds one entry per own
    property; numbers are IEEE 754 doubles. *)
Inductive json : Type :=
| JNull
| JBool (b : bool)
| JNum (n : float)
| JStr (s : string)
| JArr (items : list json)
| JObj (fields : list (string * json)).

(** A value in the relay: a JSON value, or [undefined] (a property that
    is not there). *)
Inductive value : Type :=
| undefined
| J (j : json).

Inductive exn : Type :=
| SyntaxError
| TypeError.

(** Truthiness, as [&&] and [if] test it. *)
Definition ToBoolean (v : value) : bool :=
  match v with
  | undefined => false
  | J JNull => false
  | J (JBool b) => b
  | J (JNum n) => negb (PrimFloat.is_zero n || PrimFloat.is_nan n)
  | J (JStr s) => match s with EmptyString => false | String _ _ => true end
  | J (JArr _) => true
  | J (JObj _) => true
  end.

(** [v === "lit"] *)
Definition strict_eq_string (v : value) (lit : string) : bool :=
  match v with
  | J (JStr s) => String.eqb s lit
  | _ => false
  end.

Fixpoint own_property (k : string) (fields : list (string * json)) : value :=
  match fields with
  | [] => undefined
  | (k', v) :: rest => if String.eqb k k' then J v else own_property k rest
  end.

(** [v.k], for the keys the relay reads ([type], [audio_event],
    [audio_base_64], [ping_event], [event_id], [event], [start],
    [streamSid], [media], [payload]): none of them is a property of a
    prototype, so only an object can have one; reading a property of
    [null] or [undefined] throws a TypeError. *)
Definition get (v : value) (k : string) : exn + value :=
  match v with
  | undefined => inl TypeError
  | J JNull => inl TypeError
  | J (JObj fields) => inr (own_property k fields)
  | J _ => inr undefined
  end.

(** [v?.k] *)
Definition get_optional (v : value) (k : string) : exn + value :=
  match v with
  | undefined => inr undefined
  | J JNull => inr undefined
  | _ => get v k
  end.

(** A JSON value as [JSON.stringify] writes it and [JSON.parse] reads it
    back: a number that is not finite is written [null], and negative
    zero is written [0]. *)
Fixpoint serialized (j : json) : json :=
  match j with
  | JNum n =>
      if PrimFloat.is_finite n
      then if PrimFloat.is_zero n then JNum PrimFloat.zero else JNum n
      else JNull
  | JArr items => JArr (map serialized items)
  | JObj fields => JObj (map (fun kv => (fst kv, serialized (snd kv))) fields)
  | _ => j
  end.

(** [JSON.stringify] of an object literal whose property values are
    [fields]: a property whose value is [undefined] is left out.  The
    text is represented by the JSON value it denotes. *)
Fixpoint defined_properties (fields : list (string * value)) : list (string * json) :=
  match fields with
  | [] => []
  | (k, undefined) :: rest => defined_properties rest
  | (k, J j) :: rest => (k, serialized j) :: defined_properties rest
  end.

Definition JSON_stringify (fields : list (string * value)) : json :=
  JObj (defined_properties fields).

Definition has_own_property (k : string) (fields : list (string * json)) : bool :=
  existsb (fun kv => String.eqb k (fst kv)) fields.

(** Does the conversion to a string in a template literal throw?  An
    object with an own [toString] property (which is never callable in
    parsed JSON) cannot be converted; an array joins its elements. *)
Fixpoint ToString_throws (j : json) : bool :=
  match j with
  | JArr items => existsb ToString_throws items
  | JObj fields => has_own_property "toString" fields
  | _ => false
  end.

(** A message as it arrives on a socket, seen through [JSON.parse]: a
    text that denotes a JSON value, or a text that is no JSON at all. *)
Inductive message : Type :=
| JsonText (j : json)
| NotJson (raw : string).

Definition JSON_parse (m : message) : exn + value :=
  match m with
  | JsonText j => inr (J j)
  | NotJson _ => inl SyntaxError
  end.

End JS.

(** ** A socket of the [ws] library, as the relay uses it *)

Module WebSocket.

Inductive ReadyState : Type := CONNECTING | OPEN | CLOSING | CLOSED.

Definition ReadyState_eqb (a b : ReadyState) : bool :=
  match a, b with
  | CONNECTING, CONNECTING | OPEN, OPEN | CLOSING, CLOSING | CLOSED, CLOSED => true
  | _, _ => false
  end.

(** [sent] lists the frames handed to [send], oldest first; what the
    library does with a frame is not the relay's business. *)
Record t : Type := mk { readyState : ReadyState; sent : list JS.json }.

Definition send (frame : JS.json) (w : t) : t :=
  {| readyState := readyState w; sent := sent w ++ [frame] |}.

(** [close()] starts the closing handshake; on a socket that is closing
    or closed already it does nothing. *)
Definition close (w : t) : t :=
  match readyState w with
  | CLOSED => w
  | CLOSING => w
  | _ => {| readyState := CLOSING; sent := sent w |}
  end.

Definition set_readyState (r : ReadyState) (w : t) : t :=
  {| readyState := r; sent := sent w |}.

(** The closing handshake of the socket has started or is over. *)
Definition closing_or_closed (w : t) : bool :=
  match readyState w with
  | CLOSING | CLOSED => true
  | CONNECTING | OPEN => false
  end.

End WebSocket.

(** ** The relay: one session per accepted carrier connection *)

Module Relay.
Import JS.

(** What a line written to the console carries after its text. *)
Inductive log_detail : Type :=
| NoDetail
| Interpolated (v : value)
| Thrown (err : exn)
| TransportError (description : string)
| Shown (v : value).

Inductive log_line : Type :=
| console_log (text : string) (detail : log_detail)
| console_error (text : string) (detail : log_detail).

(** The variable the callbacks close over, the two sockets, and the
    console. *)
Record Session : Type := mkSession {
  streamSid : value;
  ws : WebSocket.t;
  elevenLabsWs : WebSocket.t;
  console : list log_line
}.

(** The session [app.ws("/media-stream", (ws, req) => ...)] sets up: the
    carrier socket is the accepted one, the agent socket is still
    connecting. *)
Definition new_session : Session :=
  {| streamSid := J JNull;
     ws := WebSocket.mk WebSocket.OPEN [];
     elevenLabsWs := WebSocket.mk WebSocket.CONNECTING [];
     console := [console_log "[Server] Twilio connected to media stream." NoDetail] |}.

(** *** The effects of a callback on the session *)

Definition with_streamSid (v : value) (s : Session) : Session :=
  {| streamSid := v; ws := ws s; elevenLabsWs := elevenLabsWs s;
     console := console s |}.

Definition carrier_bound (frame : json) (s : Session) : Session :=
  {| streamSid := streamSid s; ws := WebSocket.send frame (ws s);
     elevenLabsWs := elevenLabsWs s; console := console s |}.

Definition agent_bound (frame : json) (s : Session) : Session :=
  {| streamSid := streamSid s; ws := ws s;
     elevenLabsWs := WebSocket.send frame (elevenLabsWs s);
     console := console s |}.

Definition agent_closed (s : Session) : Session :=
  {| streamSid := streamSid s; ws := ws s;
     elevenLabsWs := WebSocket.close (elevenLabsWs s);
     console := console s |}.

Definition logged (line : log_line) (s : Session) : Session :=
  {| streamSid := streamSid s; ws := ws s; elevenLabsWs := elevenLabsWs s;
     console := console s ++ [line] |}.

(** Two sessions that differ in their console only. *)
Definition same_call (s1 s2 : Session) : Prop :=
  streamSid s1 = streamSid s2 /\ ws s1 = ws s2 /\ elevenLabsWs s1 = elevenLabsWs s2.

(** *** Code that reads and writes the session and may throw

    What was written before a throw stays written. *)
Definition M (A : Type) : Type := Session -> (exn + A) * Session.

Definition ret {A : Type} (a : A) : M A := fun s => (inr a, s).

Definition bind {A B : Type} (c : M A) (k : A -> M B) : M B :=
  fun s =>
    match c s with
    | (inl err, s') => (inl err, s')
    | (inr a, s') => k a s'
    end.

Definition lift {A : Type} (r : exn + A) : M A := fun s => (r, s).

Definition try_catch (body : M unit) (handler : exn -> M unit) : M unit :=
  fun s =>
    match body s with
    | (inl err, s') => handler err s'
    | (inr tt, s') => (inr tt, s')
    end.

Declare Scope relay_scope.
Delimit Scope relay_scope with relay.
Notation "x <- c ;; k" := (bind c (fun x => k))
  (at level 61, c at next level, right associativity) : relay_scope.
Notation "c ;; k" := (bind c (fun _ => k))
  (at level 61, right associativity) : relay_scope.
Local Open Scope relay_scope.

Definition read_streamSid : M value := fun s => (inr (streamSid s), s).

Definition assign_streamSid (v : value) : M unit :=
  fun s => (inr tt, with_streamSid v s).

Definition ws_send (frame : json) : M unit :=
  fun s => (inr tt, carrier_bound frame s).

Definition elevenLabsWs_send (frame : json) : M unit :=
  fun s => (inr tt, agent_bound frame s).

Definition elevenLabsWs_close : M unit :=
  fun s => (inr tt, agent_closed s).

Definition elevenLabsWs_readyState : M WebSocket.ReadyState :=
  fun s => (inr (WebSocket.readyState (elevenLabsWs s)), s).

Definition write (line : log_line) : M unit :=
  fun s => (inr tt, logged line s).

(** The conversion of [${v}] in a template literal. *)
Definition interpolate (v : value) : M log_detail :=
  match v with
  | undefined => ret (Interpolated v)
  | J j => if ToString_throws j then lift (inl TypeError) else ret (Interpolated v)
  end.

(** What the platform delivers to a session. *)
Inductive event : Type :=
| CarrierMessage (msg : JS.message)
| CarrierClose
| AgentOpen
| AgentMessage (data : JS.message)
| AgentClose
| AgentError (description : string).

Definition set_ws (r : WebSocket.ReadyState) (s : Session) : Session :=
  {| streamSid := streamSid s; ws := WebSocket.set_readyState r (ws s);
     elevenLabsWs := elevenLabsWs s; console := console s |}.

Definition set_elevenLabsWs (r : WebSocket.ReadyState) (s : Session) : Session :=
  {| streamSid := streamSid s; ws := ws s;
     elevenLabsWs := WebSocket.set_readyState r (elevenLabsWs s);
     console := console s |}.

(** *** The callbacks of src/index.js *)

(** [elevenLabsWs.on("open", ...)] *)
Definition elevenLabsWs_on_open : M unit :=
  write (console_log "[II] Connected to ElevenLabs" NoDetail).

(** [elevenLabsWs.on("close", ...)] *)
Definition elevenLabsWs_on_close : M unit :=
  write (console_log "[II] Disconnected" NoDetail).

(** [elevenLabsWs.on("error", ...)] *)
Definition elevenLabsWs_on_error (description : string) : M unit :=
  write (console_error "[II] Error:" (TransportError description)).

(** [elevenLabsWs.on("message", ...)] *)
Definition elevenLabsWs_on_message (data : JS.message) : M unit :=
  try_catch
    (message <- lift (JSON_parse data) ;;
     type <- lift (get message "type") ;;
     is_audio <-
       (if strict_eq_string type "audio"
        then audio_event <- lift (get message "audio_event") ;;
             audio_base_64 <- lift (get_optional audio_event "audio_base_64") ;;
             ret (ToBoolean audio_base_64)
        else ret false) ;;
     if is_audio
     then
       sid <- read_streamSid ;;
       audio_event <- lift (get message "audio_event") ;;
       audio_base_64 <- lift (get audio_event "audio_base_64") ;;
       ws_send
         (JSON_stringify
            [("event", J (JStr "media"));
             ("streamSid", sid);
             ("media", J (JSON_stringify [("payload", audio_base_64)]))])
     else
       type <- lift (get message "type") ;;
       if strict_eq_string type "interruption"
       then
         sid <- read_streamSid ;;
         ws_send (JSON_stringify [("event", J (JStr "clear")); ("streamSid", sid)])
       else
         type <- lift (get message "type") ;;
         is_ping <-
           (if strict_eq_string type "ping"
            then ping_event <- lift (get message "ping_event") ;;
                 event_id <- lift (get_optional ping_event "event_id") ;;
                 ret (ToBoolean event_id)
            else ret false) ;;
         if is_ping
         then
           ping_event <- lift (get message "ping_event") ;;
           event_id <- lift (get ping_event "event_id") ;;
           elevenLabsWs_send
             (JSON_stringify [("type", J (JStr "pong")); ("event_id", event_id)])
         else ret tt)
    (fun err => write (console_error "[II] Parse error:" (Thrown err))).

(** [ws.on("close", ...)] *)
Definition ws_on_close : M unit := elevenLabsWs_close.

Section Handlers.

(** [Buffer.from(v, "base64")] for an array or an object [v]; a thrown
    TypeError is [inl TypeError]. *)
Variable Buffer_from_object : json -> exn + list byte.

(** [Buffer.from(v, "base64")] *)
Definition Buffer_from (v : value) : exn + list byte :=
  match v with
  | J (JStr s) => inr (Base64.Buffer_from_base64 s)
  | J (JArr items) => Buffer_from_object (JArr items)
  | J (JObj fields) => Buffer_from_object (JObj fields)
  | _ => inl TypeError
  end.

(** [ws.on("message", ...)] *)
Definition ws_on_message (msg : JS.message) : M unit :=
  try_catch
    (data <- lift (JSON_parse msg) ;;
     event <- lift (get data "event") ;;
     if strict_eq_string event "start"
     then
       start <- lift (get data "start") ;;
       sid <- lift (get start "streamSid") ;;
       assign_streamSid sid ;;
       sid <- read_streamSid ;;
       shown <- interpolate sid ;;
       write (console_log "[Twilio] Stream started: " shown)
     else
       event <- lift (get data "event") ;;
       is_media_and_open <-
         (if strict_eq_string event "media"
          then readyState <- elevenLabsWs_readyState ;;
               ret (WebSocket.ReadyState_eqb readyState WebSocket.OPEN)
          else ret false) ;;
       if is_media_and_open
       then
         media <- lift (get data "media") ;;
         payload <- lift (get media "payload") ;;
         buf <- lift (Buffer_from payload) ;;
         elevenLabsWs_send
           (JSON_stringify
              [("user_audio_chunk", J (JStr (Base64.toString_base64 buf)))])
       else
         event <- lift (get data "event") ;;
         if strict_eq_string event "stop"
         then elevenLabsWs_close
         else ret tt)
    (fun err => write (console_error "[Twilio] Error:" (Thrown err))).

(** The callback an event runs.  An [open] or [close] event is emitted
    once the socket has reached that state. *)
Definition dispatch (e : event) : M unit :=
  match e with
  | CarrierMessage msg => ws_on_message msg
  | CarrierClose => fun s => ws_on_close (set_ws WebSocket.CLOSED s)
  | AgentOpen => fun s => elevenLabsWs_on_open (set_elevenLabsWs WebSocket.OPEN s)
  | AgentMessage data => elevenLabsWs_on_message data
  | AgentClose => fun s => elevenLabsWs_on_close (set_elevenLabsWs WebSocket.CLOSED s)
  | AgentError description => elevenLabsWs_on_error description
  end.

Definition step (e : event) (s : Session) : Session := snd (dispatch e s).

(** Events are handled one at a time, each to completion. *)
Fixpoint run (events : list event) (s : Session) : Session :=
  match events with
  | [] => s
  | e :: rest => run rest (step e s)
  end.

End Handlers.

(** The identifier a carrier [start] frame assigns, when the event is such
    a frame and has a [start] property to read it from. *)
Definition start_streamSid (e : event) : option value :=
  match e with
  | CarrierMessage (JsonText data) =>
      match get (J data) "event" with
      | inr type =>
          if strict_eq_string type "start"
          then match get (J data) "start" with
               | inr start =>
                   match get start "streamSid" with
                   | inr sid => Some sid
                   | inl _ => None
                   end
               | inl _ => None
               end
          else None
      | inl _ => None
      end
  | _ => None
  end.

(** A computation whose result and effects are the same in two sessions
    that differ in their console only. *)
Definition ignores_console {A : Type} (c : M A) : Prop :=
  forall s1 s2,
    same_call s1 s2 ->
    fst (c s1) = fst (c s2) /\ same_call (snd (c s1)) (snd (c s2)).

(** A computation that leaves every session it runs in related to the
    session it ends in. *)
Definition keeps {A : Type} (R : Session -> Session -> Prop) (c : M A) : Prop :=
  forall s, R s (snd (c s)).

(** The carrier socket is in the same state in both sessions. *)
Definition same_carrier_state (s s' : Session) : Prop :=
  WebSocket.readyState (ws s') = WebSocket.readyState (ws s).

(** *** Frames of the two protocols, for examples *)

Definition start_frame (sid : string) : json :=
  JObj [("event", JStr "start"); ("start", JObj [("streamSid", JStr sid)])].

Definition media_frame (payload : string) : json :=
  JObj [("event", JStr "media"); ("media", JObj [("payload", JStr payload)])].

Definition stop_frame : json := JObj [("event", JStr "stop")].

Definition audio_frame (payload : string) : json :=
  JObj [("type", JStr "audio"); ("audio_event", JObj [("audio_base_64", JStr payload)])].

Definition interruption_frame : json := JObj [("type", JStr "interruption")].

Definition ping_frame (event_id : string) : json :=
  JObj [("type", JStr "ping"); ("ping_event", JObj [("event_id", JStr event_id)])].

(** The stand-in for [Buffer.from] on arrays and objects in closed
    examples: no example hands it one. *)
Definition no_objects (j : json) : exn + list byte := inl TypeError.

(** A session whose two sockets are open. *)
Definition open_session : Session := step no_objects AgentOpen new_session.

End Relay.

(** ** The callbacks of the earlier revision (src/unnamed/part_000, lines 63 to 129)

    The same relay written with [switch]; an agent frame of another type is
    reported on the console. *)

Module Part000.
Import JS Relay.
Local Open Scope relay_scope.

(** [elevenLabsWs.on("message", ...)] *)
Definition elevenLabsWs_on_message (data : JS.message) : M unit :=
  try_catch
    (message <- lift (JSON_parse data) ;;
     type <- lift (get message "type") ;;
     if strict_eq_string type "audio"
     then
       audio_event <- lift (get message "audio_event") ;;
       audio_base_64 <- lift (get_optional audio_event "audio_base_64") ;;
       if ToBoolean audio_base_64
       then
         sid <- read_streamSid ;;
         audio_event <- lift (get message "audio_event") ;;
         audio_base_64 <- lift (get audio_event "audio_base_64") ;;
         ws_send
           (JSON_stringify
              [("event", J (JStr "media"));
               ("streamSid", sid);
               ("media", J (JSON_stringify [("payload", audio_base_64)]))])
       else ret tt
     else if strict_eq_string type "interruption"
     then
       sid <- read_streamSid ;;
       ws_send (JSON_stringify [("event", J (JStr "clear")); ("streamSid", sid)])
     else if strict_eq_string type "ping"
     then
       ping_event <- lift (get message "ping_event") ;;
       event_id <- lift (get_optional ping_event "event_id") ;;
       if ToBoolean event_id
       then
         ping_event <- lift (get message "ping_event") ;;
         event_id <- lift (get ping_event "event_id") ;;
         elevenLabsWs_send
           (JSON_stringify [("type", J (JStr "pong")); ("event_id", event_id)])
       else ret tt
     else
       type <- lift (get message "type") ;;
       write (console_log "[II] Unhandled:" (Shown type)))
    (fun err => write (console_error "[II] Parse error:" (Thrown err))).

Section Handlers.

Variable Buffer_from_object : json -> exn + list byte.

(** [ws.on("message", ...)] *)
Definition ws_on_message (msg : JS.message) : M unit :=
  try_catch
    (data <- lift (JSON_parse msg) ;;
     event <- lift (get data "event") ;;
     if strict_eq_string event "start"
     then
       start <- lift (get data "start") ;;
       sid <- lift (get start "streamSid") ;;
       assign_streamSid sid ;;
       sid <- read_streamSid ;;
       shown <- interpolate sid ;;
       write (console_log "[Twilio] Stream started: " shown)
     else if strict_eq_string event "media"
     then
       readyState <- elevenLabsWs_readyState ;;
       if WebSocket.ReadyState_eqb readyState WebSocket.OPEN
       then
         media <- lift (get data "media") ;;
         payload <- lift (get media "payload") ;;
         buf <- lift (Buffer_from Buffer_from_object payload) ;;
         elevenLabsWs_send
           (JSON_stringify
              [("user_audio_chunk", J (JStr (Base64.toString_base64 buf)))])
       else ret tt
     else if strict_eq_string event "stop"
     then elevenLabsWs_close
     else ret tt)
    (fun err => write (console_error "[Twilio] Error:" (Thrown err))).

End Handlers.

End Part000.

(** ** What the relay hands to the two sockets *)

Module Frames.
Import JS Relay.
Local Open Scope list_scope.

(** [{event: "media", streamSid, media: {payload}}], as it is written to
    the carrier socket. *)
Definition carrier_media (sid : value) (payload : json) : json :=
  JSON_stringify
    [("event", J (JStr "media"));
     ("streamSid", sid);
     ("media", J (JSON_stringify [("payload", J payload)]))].

(** [{event: "clear", streamSid}] *)
Definition carrier_clear (sid : value) : json :=
  JSON_stringify [("event", J (JStr "clear")); ("streamSid", sid)].

(** [{user_audio_chunk: buf.toString("base64")}] *)
Definition agent_chunk (buf : list byte) : json :=
  JSON_stringify [("user_audio_chunk", J (JStr (Base64.toString_base64 buf)))].

(** [{type: "pong", event_id}] *)
Definition agent_pong (event_id : json) : json :=
  JSON_stringify [("type", J (JStr "pong")); ("event_id", J event_id)].

(** The frames of the carrier protocol as the callbacks build them: media
    made of a payload that is truthy before it is written, and clear. *)
Definition carrier_frame (f : json) : Prop :=
  (exists sid payload, ToBoolean (J payload) = true /\ f = carrier_media sid payload)
  \/ (exists sid, f = carrier_clear sid).

(** The frames of the agent protocol as the callbacks build them: an audio
    chunk in base64, and pong made of an identifier that is truthy before
    it is written. *)
Definition agent_frame (f : json) : Prop :=
  (exists buf, f = agent_chunk buf)
  \/ (exists event_id, ToBoolean (J event_id) = true /\ f = agent_pong event_id).

(** What [JSON.stringify] can have written of a truthy value: a truthy
    value, or [null], which is what it writes for a number that is not
    finite. *)
Definition truthy_or_null (j : json) : bool :=
  match j with
  | JNull => true
  | _ => ToBoolean (J j)
  end.

(** The frames of the carrier protocol as they are on the socket: a
    [media] frame with its payload, and a [clear] frame, each with or
    without a [streamSid] property. *)
Definition carrier_frame_written (f : json) : Prop :=
  (exists payload,
      truthy_or_null payload = true
      /\ (f = JObj [("event", JStr "media"); ("media", JObj [("payload", payload)])]
          \/ exists sid,
               f = JObj [("event", JStr "media"); ("streamSid", sid);
                         ("media", JObj [("payload", payload)])]))
  \/ f = JObj [("event", JStr "clear")]
  \/ (exists sid, f = JObj [("event", JStr "clear"); ("streamSid", sid)]).

(** The frames of the agent protocol as they are on the socket: an audio
    chunk that is a valid base64 string, and a [pong] frame with its
    identifier. *)
Definition agent_frame_written (f : json) : Prop :=
  (exists chunk,
      Base64.is_base64 chunk = true /\ f = JObj [("user_audio_chunk", JStr chunk)])
  \/ (exists event_id,
        truthy_or_null event_id = true
        /\ f = JObj [("type", JStr "pong"); ("event_id", event_id)]).

(** What one callback hands to the sockets. *)
Inductive emitted : Type :=
| Nothing
| ToCarrier (f : json)
| ToAgent (f : json).

(** The frames handed to the sockets in [s'] are those of [s] and then
    what was emitted. *)
Definition emits (s s' : Session) (o : emitted) : Prop :=
  match o with
  | Nothing =>
      WebSocket.sent (ws s') = WebSocket.sent (ws s)
      /\ WebSocket.sent (elevenLabsWs s') = WebSocket.sent (elevenLabsWs s)
  | ToCarrier f =>
      WebSocket.sent (ws s') = WebSocket.sent (ws s) ++ [f]
      /\ WebSocket.sent (elevenLabsWs s') = WebSocket.sent (elevenLabsWs s)
      /\ carrier_frame f
  | ToAgent f =>
      WebSocket.sent (ws s') = WebSocket.sent (ws s)
      /\ WebSocket.sent (elevenLabsWs s') = WebSocket.sent (elevenLabsWs s) ++ [f]
      /\ agent_frame f
  end.

(** The payload [Buffer.from(P, "base64").toString("base64")] makes of a
    string. *)
Definition normalised (P : string) : string :=
  Base64.toString_base64 (Base64.Buffer_from_base64 P).

(** A value [Buffer.from] accepts no matter what: not a string, an array
    or an object. *)
Definition not_a_buffer_source (v : value) : bool :=
  match v with
  | J (JStr _) | J (JArr _) | J (JObj _) => false
  | _ => true
  end.

(** A JSON value that is an object (not an array). *)
Definition is_object (j : json) : bool :=
  match j with
  | JObj _ => true
  | _ => false
  end.

(** The agent frame types the relay acts on. *)
Definition known_agent_type (type : value) : bool :=
  strict_eq_string type "audio" || strict_eq_string type "interruption"
  || strict_eq_string type "ping".

(** The carrier events the relay acts on. *)
Definition known_carrier_event (event : value) : bool :=
  strict_eq_string event "start" || strict_eq_string event "media"
  || strict_eq_string event "stop".

End Frames.

(** ** The HTTP routes of src/index.js, and [/analyze] of the earlier revision *)

Module Routes.
Import JS.
Local Open Scope list_scope.

(** The variables of [process.env] the routes read: a string, or
    [undefined]. *)
Record Env : Type := mkEnv {
  TWILIO_PHONE_NUMBER : option string;
  BASE_URL : option string;
  GEMINI_API_KEY : option string;
  PYTHON_API_URL : option string;
  PORT : option string
}.

(** Truthiness of a variable of the environment: set, and not empty. *)
Definition is_set (v : option string) : bool :=
  match v with
  | Some (String _ _) => true
  | _ => false
  end.

(** [${v}] for a variable of the environment. *)
Definition interpolated (v : option string) : string :=
  match v with
  | Some text => text
  | None => "undefined"
  end.

(** [${PORT || 3000}] *)
Definition SERVER_PORT (env : Env) : string :=
  if is_set (PORT env)
  then interpolated (PORT env)
  else NilEmpty.string_of_uint (N.to_uint 3000).

(** [BASE_URL || `https://e-t-backend.onrender.com:${SERVER_PORT}`] *)
Definition PUBLIC_URL (env : Env) : string :=
  if is_set (BASE_URL env)
  then interpolated (BASE_URL env)
  else ("https://e-t-backend.onrender.com:" ++ SERVER_PORT env)%string.

(** What a handler catches: a value its own code threw, an [axios] error
    for an answer outside 2xx (the only one with [err.response]), or any
    other rejection of a request. *)
Inductive error : Type :=
| Thrown (e : exn)
| HttpError (status : N) (data : json)
| Failure (message : string).

(** The requests the routes make.  The body of an [axios.post] is the
    value of its JSON text.  The prompt sent to the generative service is
    a fixed text that ends with [JSON.stringify(shown, null, 2)]; the
    request is represented by its URL, the key in its header and
    [shown]. *)
Inductive request : Type :=
| TwilioCallsCreate (url : string) (to : value) (from : option string)
| AxiosPost (url : string) (data : json)
| GeminiPost (url : string) (key : option string) (shown : json).

(** How a request ends: [Resolved] with the call Twilio created or with
    [response.data], or [Rejected]. *)
Inductive settled : Type :=
| Resolved (data : json)
| Rejected (err : error).

(** [axios] resolves on a status from 200 to 299 and rejects on any
    other. *)
Definition axios_outcome (status : N) (data : json) : settled :=
  if (200 <=? status)%N && (status <? 300)%N
  then Resolved data
  else Rejected (HttpError status data).

Inductive line : Type :=
| console_log (text : string) (shown : value)
| console_warn (text : string) (err : error)
| console_error (text : string) (err : error).

(** What a handler leaves behind: the requests it made and the lines it
    wrote, oldest first. *)
Record World : Type := mkWorld {
  requests : list request;
  console : list line
}.

(** [res.status(status).json(body)]; [res.json(body)] has status 200. *)
Record response : Type := mkResponse {
  status : N;
  body : json
}.

(** A handler: it ends with a response, or throws before it sent one. *)
Definition H (A : Type) : Type := World -> (error + A) * World.

Definition ret {A : Type} (a : A) : H A := fun w => (inr a, w).

Definition bind {A B : Type} (c : H A) (k : A -> H B) : H B :=
  fun w =>
    match c w with
    | (inl err, w') => (inl err, w')
    | (inr a, w') => k a w'
    end.

Definition try_catch {A : Type} (body : H A) (handler : error -> H A) : H A :=
  fun w =>
    match body w with
    | (inl err, w') => handler err w'
    | (inr a, w') => (inr a, w')
    end.

(** An expression that may throw a TypeError. *)
Definition js {A : Type} (r : exn + A) : H A :=
  fun w =>
    match r with
    | inl e => (inl (Thrown e), w)
    | inr a => (inr a, w)
    end.

Definition write (l : line) : H unit :=
  fun w => (inr tt, {| requests := requests w; console := console w ++ [l] |}).

Declare Scope routes_scope.
Delimit Scope routes_scope with routes.
Notation "x <- c ;; k" := (bind c (fun x => k))
  (at level 61, c at next level, right associativity) : routes_scope.
Notation "c ;; k" := (bind c (fun _ => k))
  (at level 61, right associativity) : routes_scope.
Local Open Scope routes_scope.

(** [${v}] in a template literal. *)
Definition interpolate (v : value) : H value :=
  match v with
  | undefined => ret v
  | J j => if ToString_throws j then js (inl TypeError) else ret v
  end.

(** [x || fallback], for a fallback that is a JSON value. *)
Definition or_else (x : value) (fallback : json) : json :=
  match x with
  | undefined => fallback
  | J j => if ToBoolean x then j else fallback
  end.

(** [v?.k], which does not throw. *)
Definition optional (v : value) (k : string) : value :=
  match get_optional v k with
  | inr x => x
  | inl _ => undefined
  end.

(** The characters of a string as JSON values, one per code unit. *)
Definition characters (text : string) : list json :=
  map JStr (UTF16.characters text).

(** [v?.[0]]: the first element of an array, the first character of a
    string, the property ["0"] of an object. *)
Definition optional_first (v : value) : value :=
  match v with
  | J (JArr (x :: _)) => J x
  | J (JStr text) =>
      match characters text with
      | c :: _ => J c
      | [] => undefined
      end
  | J (JObj fields) => own_property "0" fields
  | _ => undefined
  end.

Fixpoint indexed {A : Type} (from : nat) (l : list A) : list (string * A) :=
  match l with
  | [] => []
  | x :: rest => (NilEmpty.string_of_uint (Nat.to_uint from), x) :: indexed (S from) rest
  end.

(** The own enumerable properties of a value that is not [null]: those of
    an object, the elements of an array and the characters of a string
    under their indices, none for a number or a boolean. *)
Definition own_properties (data : json) : list (string * json) :=
  match data with
  | JObj fields => fields
  | JArr items => indexed 0 items
  | JStr text => indexed 0 (characters text)
  | _ => []
  end.

Definition without (k : string) (fields : list (string * json)) : list (string * json) :=
  filter (fun kv => negb (String.eqb k (fst kv))) fields.

(** [{...fields, k: v}]: [k] keeps its place when it is there already. *)
Fixpoint set_property (k : string) (v : json) (fields : list (string * json))
  : list (string * json) :=
  match fields with
  | [] => [(k, v)]
  | (k', v') :: rest =>
      if String.eqb k k' then (k, v) :: rest else (k', v') :: set_property k v rest
  end.

Definition respond (code : N) (data : json) : response :=
  {| status := code; body := serialized data |}.

Section Server.

Variable env : Env.

(** How the services answer. *)
Variable service : request -> settled.

(** The number [parseFloat] reads at the start of the string form of its
    argument. *)
Variable parseFloat_of : value -> float.

(** [await] of a request. *)
Definition await (r : request) : H json :=
  fun w =>
    (match service r with
     | Resolved data => inr data
     | Rejected err => inl err
     end,
     {| requests := requests w ++ [r]; console := console w |}).

(** [app.post("/make-outbound-call", ...)] *)
Definition make_outbound_call (req_body : value) : H response :=
  to <- js (get req_body "to") ;;
  if negb (ToBoolean to)
  then ret (respond 400 (JSON_stringify [("error", J (JStr "Phone number required"))]))
  else
    try_catch
      (call <- await (TwilioCallsCreate
                        (PUBLIC_URL env ++ "/incoming-call-eleven")%string
                        to (TWILIO_PHONE_NUMBER env)) ;;
       sid <- js (get (J call) "sid") ;;
       shown <- interpolate sid ;;
       write (console_log "[Twilio] Outbound call initiated: " shown) ;;
       sid <- js (get (J call) "sid") ;;
       ret (respond 200
              (JSON_stringify [("message", J (JStr "Call initiated")); ("callSid", sid)])))
      (fun err =>
         write (console_error "[Twilio] Call error:" err) ;;
         ret (respond 500
                (JSON_stringify [("error", J (JStr "Failed to initiate call"))]))).

(** [app.post("/call", ...)] *)
Definition call (req_body : value) : H response :=
  to <- js (get req_body "to") ;;
  try_catch
    (data <- await (AxiosPost (PUBLIC_URL env ++ "/make-outbound-call")%string
                      (JSON_stringify [("to", to)])) ;;
     ret (respond 200 data))
    (fun err =>
       ret (respond 500
              (JSON_stringify [("message", J (JStr "Failed to initiate call"))]))).

(** [parseFloat(req.body.k)] *)
Definition parseFloat_property (req_body : value) (k : string) : H float :=
  v <- js (get req_body k) ;;
  match v with
  | undefined => ret (parseFloat_of v)
  | J j => if ToString_throws j then js (inl TypeError) else ret (parseFloat_of v)
  end.

(** The object both analysis routes send to the prediction service. *)
Definition mappedData (req_body : value) : H json :=
  ph <- parseFloat_property req_body "ph" ;;
  tds <- parseFloat_property req_body "tds" ;;
  orp <- parseFloat_property req_body "orp" ;;
  r <- parseFloat_property req_body "color_r" ;;
  g <- parseFloat_property req_body "color_g" ;;
  b <- parseFloat_property req_body "color_b" ;;
  bme688 <- parseFloat_property req_body "bme688" ;;
  ret (JSON_stringify
         [("ph", J (JNum ph)); ("tds", J (JNum tds)); ("orp", J (JNum orp));
          ("r", J (JNum r)); ("g", J (JNum g)); ("b", J (JNum b));
          ("bme688", J (JNum bme688))]).

(** [const { charts, ...pythonText } = pythonResp.data] *)
Definition rest_without_charts (data : json) : exn + list (string * json) :=
  match data with
  | JNull => inl TypeError
  | _ => inr (without "charts" (own_properties data))
  end.

Definition geminiInput (pythonText : list (string * json)) : json :=
  JSON_stringify
    [("predicted_product", own_property "predicted_product" pythonText);
     ("input_values", own_property "input_values" pythonText);
     ("overall_match", own_property "overall_match" pythonText);
     ("overall_impurity", own_property "overall_impurity" pythonText);
     ("sensor_matches", own_property "sensor_matches" pythonText);
     ("taste_profile", own_property "taste_profile" pythonText)].

(** [data?.candidates?.[0]?.content?.parts?.[0]?.text] *)
Definition candidate_text (data : json) : value :=
  optional
    (optional_first
       (optional (optional (optional_first (optional (J data) "candidates")) "content")
          "parts"))
    "text".

Definition gemini_2_0_url : string :=
  "https://generativelanguage.googleapis.com/v1beta/models/gemini-2.0-flash-lite-001:generateContent".

(** [app.post("/api/analyze", ...)] of src/index.js *)
Definition api_analyze (req_body : value) : H response :=
  try_catch
    (mapped <- mappedData req_body ;;
     data <- await (AxiosPost (interpolated (PYTHON_API_URL env) ++ "/predict")%string
                      mapped) ;;
     pythonText <- js (rest_without_charts data) ;;
     geminiText <-
       (if is_set (GEMINI_API_KEY env)
        then
          try_catch
            (geminiData <- await (GeminiPost gemini_2_0_url (GEMINI_API_KEY env)
                                    (geminiInput pythonText)) ;;
             ret (or_else (candidate_text geminiData) (JStr "No analysis from Gemini.")))
            (fun err =>
               write (console_warn "⚠️ Gemini failed:" err) ;;
               ret (JStr "Gemini analysis unavailable."))
        else ret (JStr "Gemini API key not configured.")) ;;
     ret (respond 200 (JObj (set_property "note" geminiText pythonText))))
    (fun err =>
       write (console_error "API Analyze error:" err) ;;
       ret (respond 500
              (JSON_stringify [("error", J (JStr "Failed to fetch analysis results"))]))).

Definition gemini_1_5_url : string :=
  "https://generativelanguage.googleapis.com/v1beta/models/gemini-1.5-flash:generateContent".

(** [app.post("/analyze", ...)] of src/unnamed/part_000 (lines 177 to 226) *)
Definition analyze (req_body : value) : H response :=
  try_catch
    (mapped <- mappedData req_body ;;
     data <- await (AxiosPost "http://127.0.0.1:5001/predict" mapped) ;;
     found <- js (get (J data) "charts") ;;
     let charts := or_else found JNull in
     let pythonText := without "charts" (own_properties data) in
     geminiData <- await (GeminiPost gemini_1_5_url (GEMINI_API_KEY env)
                            (serialized (JObj pythonText))) ;;
     let geminiText := or_else (candidate_text geminiData) (JStr "") in
     ret (respond 200
            (JObj (set_property "charts" charts
                     (set_property "note" geminiText pythonText)))))
    (fun err =>
       match err with
       | HttpError code data => ret (respond code data)
       | _ =>
           ret (respond 500
                  (JSON_stringify
                     [("error", J (JStr "Failed to connect to Python or Gemini"))]))
       end).

End Server.

(** A computation that asks nothing and writes nothing. *)
Definition silent {A : Type} (c : H A) : Prop := forall w, snd (c w) = w.

(** *** A server and its services, for examples *)

Definition example_env : Env :=
  {| TWILIO_PHONE_NUMBER := Some "+15550100";
     BASE_URL := None;
     GEMINI_API_KEY := Some "key";
     PYTHON_API_URL := Some "http://python:5001";
     PORT := None |}.

Definition env_without_key : Env :=
  {| TWILIO_PHONE_NUMBER := Some "+15550100";
     BASE_URL := None;
     GEMINI_API_KEY := None;
     PYTHON_API_URL := Some "http://python:5001";
     PORT := None |}.

Definition prediction : json :=
  JObj [("predicted_product", JStr "Triphala"); ("charts", JStr "iVBORw0KGgo=");
        ("overall_match", JStr "92%")].

(** Twilio creates the call, the prediction service answers, the
    generative service times out. *)
Definition example_service (r : request) : settled :=
  match r with
  | TwilioCallsCreate _ _ _ => Resolved (JObj [("sid", JStr "CA42")])
  | AxiosPost _ _ => Resolved prediction
  | GeminiPost _ _ _ => Rejected (Failure "timeout of 10000ms exceeded")
  end.

(** Every service answers 503. *)
Definition unavailable_service (r : request) : settled :=
  Rejected (HttpError 503 (JObj [("detail", JStr "Service Unavailable")])).

(** Twilio refuses, the prediction service answers, the generative
    service answers with a text. *)
Definition answering_service (r : request) : settled :=
  match r with
  | TwilioCallsCreate _ _ _ => Rejected (Failure "Authenticate")
  | AxiosPost _ _ => Resolved prediction
  | GeminiPost _ _ _ =>
      Resolved
        (JObj [("candidates",
                JArr [JObj [("content",
                             JObj [("parts", JArr [JObj [("text", JStr "Safe.")]])])]])])
  end.

(** A stand-in for [parseFloat] in examples. *)
Definition parseFloat_zero (v : value) : float := PrimFloat.zero.

Definition sensor_body : value :=
  J (JObj [("ph", JStr "7.1"); ("tds", JStr "120"); ("orp", JStr "250");
           ("color_r", JStr "10"); ("color_g", JStr "20"); ("color_b", JStr "30");
           ("bme688", JStr "1")]).

(** A world in which nothing was asked or written yet. *)
Definition quiet : World := {| requests := []; console := [] |}.

(** The services as they are when [PUBLIC_URL] is the address of this
    server: the request [/call] posts to [PUBLIC_URL/make-outbound-call] is
    answered by the route of that name, given the body of the request, and
    [axios] settles on the status of its answer (a handler that throws
    makes the framework answer 500); every other request goes to
    [outside]. *)
Definition looped_back (env : Env) (outside : request -> settled) (r : request)
  : settled :=
  match r with
  | AxiosPost url data =>
      if String.eqb url (PUBLIC_URL env ++ "/make-outbound-call")%string
      then match fst (make_outbound_call env outside (J data) quiet) with
           | inr answer => axios_outcome (status answer) (body answer)
           | inl _ => Rejected (HttpError 500 (JStr "Internal Server Error"))
           end
      else outside r
  | _ => outside r
  end.

(** Has the generative service been asked? *)
Definition asks_gemini (r : request) : bool :=
  match r with
  | GeminiPost _ _ _ => true
  | _ => false
  end.

End Routes.

(** * Properties *)

(** ** The base64 codec *)

Module Base64Facts.
Import Base64.

Ltac div_lia := zify; Z.to_euclidean_division_equations; lia.

(** Strings are taken apart four characters at a time. *)
Lemma string_ind4 (Q : string -> Prop) :
  Q "" ->
  (forall c0, Q (String c0 "")) ->
  (forall c0 c1, Q (String c0 (String c1 ""))) ->
  (forall c0 c1 c2, Q (String c0 (String c1 (String c2 "")))) ->
  (forall c0 c1 c2 c3 rest, Q rest ->
     Q (String c0 (String c1 (String c2 (String c3 rest))))) ->
  forall s, Q s.
Proof.
  intros H0 H1 H2 H3 H4.
  fix IH 1.
  intros [|c0 [|c1 [|c2 [|c3 rest]]]];
    [apply H0 | apply H1 | apply H2 | apply H3 | apply H4; apply IH].
Qed.

(** Buffers are taken apart three bytes at a time. *)
Lemma list_ind3 {A : Type} (Q : list A -> Prop) :
  Q [] ->
  (forall a, Q [a]) ->
  (forall a b, Q [a; b]) ->
  (forall a b c rest, Q rest -> Q (a :: b :: c :: rest)) ->
  forall l, Q l.
Proof.
  intros H0 H1 H2 H3.
  fix IH 1.
  intros [|a [|b [|c rest]]];
    [apply H0 | apply H1 | apply H2 | apply H3; apply IH].
Qed.

Lemma table_agrees_all (c : ascii) : table_agrees c = true.
Proof. destruct c as [[] [] [] [] [] [] [] []]; vm_compute; reflexivity. Qed.

Lemma unbase64_of_alphabet (c : ascii) :
  is_base64_char c = true ->
  exists n, unbase64 c = Some n /\ n < 64 /\ base64_char n = c
            /\ Ascii.eqb c "=" = false.
Proof.
  intros Hc. pose proof (table_agrees_all c) as H.
  unfold table_agrees in H. rewrite Hc in H.
  destruct (unbase64 c) as [n|]; [|discriminate].
  apply andb_true_iff in H as [H Hpad]. apply andb_true_iff in H as [Hlt Hch].
  exists n. repeat split.
  - now apply N.ltb_lt.
  - now apply Ascii.eqb_eq.
  - now apply negb_true_iff.
Qed.

Lemma unbase64_bound (c : ascii) (n : N) : unbase64 c = Some n -> n < 64.
Proof.
  assert (H : match unbase64 c with Some m => m <? 64 | None => true end = true)
    by (destruct c as [[] [] [] [] [] [] [] []]; vm_compute; reflexivity).
  intros Hn. rewrite Hn in H. now apply N.ltb_lt.
Qed.

Lemma alphabet_agrees_all (n : N) : n < 64 -> alphabet_agrees n = true.
Proof.
  intros Hn.
  assert (Hall : forallb alphabet_agrees (map N.of_nat (seq 0 64)) = true)
    by (vm_compute; reflexivity).
  rewrite forallb_forall in Hall. apply Hall.
  rewrite <- (N2Nat.id n). apply in_map. apply in_seq. lia.
Qed.

Lemma base64_char_of_sextet (n : N) :
  n < 64 ->
  is_base64_char (base64_char n) = true
  /\ unbase64 (base64_char n) = Some n
  /\ Ascii.eqb (base64_char n) "=" = false.
Proof.
  intros Hn. pose proof (alphabet_agrees_all n Hn) as H.
  unfold alphabet_agrees in H.
  apply andb_true_iff in H as [H Hpad]. apply andb_true_iff in H as [Hch Hun].
  repeat split; auto.
  - destruct (unbase64 (base64_char n)) as [m|]; [|discriminate].
    apply N.eqb_eq in Hun. now subst.
  - now apply negb_true_iff.
Qed.

Lemma to_N_byte_of_N (n : N) : n < 256 -> Byte.to_N (byte_of_N n) = n.
Proof.
  intros Hn. unfold byte_of_N.
  destruct (Byte.of_N n) as [b|] eqn:Hb.
  - now apply Byte.to_of_N.
  - apply Byte.of_N_None_iff in Hb. lia.
Qed.

Lemma byte_of_N_to_N (b : byte) : byte_of_N (Byte.to_N b) = b.
Proof. unfold byte_of_N. now rewrite Byte.of_to_N. Qed.

Lemma to_N_lt_256 (b : byte) : Byte.to_N b < 256.
Proof. pose proof (Byte.to_N_bounded b). lia. Qed.

Lemma sextets_cons (c : ascii) (n : N) (rest : string) :
  unbase64 c = Some n -> Ascii.eqb c "=" = false ->
  sextets (String c rest) = n :: sextets rest.
Proof. intros Hn Hpad. cbn [sextets]. now rewrite Hpad, Hn. Qed.

Lemma sextets_padding (rest : string) : sextets (String "=" rest) = [].
Proof. reflexivity. Qed.

(** Three bytes made of four groups encode to the characters of the four
    groups. *)
Lemma encode_three_bytes (n0 n1 n2 n3 : N) (rest : list byte) :
  n0 < 64 -> n1 < 64 -> n2 < 64 -> n3 < 64 ->
  toString_base64
    (byte_of_N (n0 * 4 + n1 / 16)
       :: byte_of_N ((n1 mod 16) * 16 + n2 / 4)
       :: byte_of_N ((n2 mod 4) * 64 + n3) :: rest) =
  String (base64_char n0)
    (String (base64_char n1)
       (String (base64_char n2)
          (String (base64_char n3) (toString_base64 rest)))).
Proof.
  intros H0 H1 H2 H3. cbn [toString_base64].
  rewrite !to_N_byte_of_N by div_lia.
  replace ((n0 * 4 + n1 / 16) / 4) with n0 by div_lia.
  replace ((n0 * 4 + n1 / 16) mod 4 * 16 + (n1 mod 16 * 16 + n2 / 4) / 16)
    with n1 by div_lia.
  replace ((n1 mod 16 * 16 + n2 / 4) mod 16 * 4 + (n2 mod 4 * 64 + n3) / 64)
    with n2 by div_lia.
  replace ((n2 mod 4 * 64 + n3) mod 64) with n3 by div_lia.
  reflexivity.
Qed.

Lemma encode_two_bytes (n0 n1 n2 : N) :
  n0 < 64 -> n1 < 64 -> n2 < 64 -> n2 mod 4 = 0 ->
  toString_base64
    [byte_of_N (n0 * 4 + n1 / 16); byte_of_N ((n1 mod 16) * 16 + n2 / 4)] =
  String (base64_char n0)
    (String (base64_char n1) (String (base64_char n2) "=")).
Proof.
  intros H0 H1 H2 Hz. cbn [toString_base64].
  rewrite !to_N_byte_of_N by div_lia.
  replace ((n0 * 4 + n1 / 16) / 4) with n0 by div_lia.
  replace ((n0 * 4 + n1 / 16) mod 4 * 16 + (n1 mod 16 * 16 + n2 / 4) / 16)
    with n1 by div_lia.
  replace ((n1 mod 16 * 16 + n2 / 4) mod 16 * 4) with n2 by div_lia.
  reflexivity.
Qed.

Lemma encode_one_byte (n0 n1 : N) :
  n0 < 64 -> n1 < 64 -> n1 mod 16 = 0 ->
  toString_base64 [byte_of_N (n0 * 4 + n1 / 16)] =
  String (base64_char n0) (String (base64_char n1) "==").
Proof.
  intros H0 H1 Hz. cbn [toString_base64].
  rewrite !to_N_byte_of_N by div_lia.
  replace ((n0 * 4 + n1 / 16) / 4) with n0 by div_lia.
  replace ((n0 * 4 + n1 / 16) mod 4 * 16) with n1 by div_lia.
  reflexivity.
Qed.

Lemma low_bits_zero_inv (m : N) (c : ascii) (n : N) :
  low_bits_zero m c = true -> unbase64 c = Some n -> n mod m = 0.
Proof.
  unfold low_bits_zero. intros H Hn. rewrite Hn in H. now apply N.eqb_eq.
Qed.

Ltac alphabet c n :=
  let Hun := fresh "Hun" in
  let Hlt := fresh "Hlt" in
  let Hch := fresh "Hch" in
  let Hpad := fresh "Hpad" in
  match goal with
  | H : is_base64_char c = true |- _ =>
      destruct (unbase64_of_alphabet c H) as (n & Hun & Hlt & Hch & Hpad)
  end.

(** *** Code units *)

Lemma code_units_ascii (c : ascii) (rest : string) :
  N_of_ascii c < 128 ->
  UTF16.code_units (String c rest) = N_of_ascii c :: UTF16.code_units rest.
Proof.
  intros Hc. cbn [UTF16.code_units].
  destruct (N.ltb_spec (N_of_ascii c) 192); [reflexivity | lia].
Qed.

Lemma N_of_ascii_lt_256 (c : ascii) : N_of_ascii c < 256.
Proof. destruct c as [[] [] [] [] [] [] [] []]; vm_compute; reflexivity. Qed.

(** The string of a code unit is made of that unit alone. *)
Lemma code_units_of_code_unit (u : N) :
  u < 65536 -> UTF16.code_units (UTF16.of_code_unit u) = [u].
Proof.
  intros Hu. unfold UTF16.of_code_unit.
  destruct (N.ltb_spec u 128) as [H1|H1]; [|destruct (N.ltb_spec u 2048) as [H2|H2]];
    cbn [UTF16.code_units]; unfold UTF16.continuation;
    rewrite !N_ascii_embedding by div_lia.
  - destruct (N.ltb_spec u 192); [reflexivity | lia].
  - destruct (N.ltb_spec (192 + u / 64) 192); [div_lia|].
    destruct (N.ltb_spec (192 + u / 64) 224); [|div_lia].
    f_equal. div_lia.
  - destruct (N.ltb_spec (224 + u / 4096) 192); [div_lia|].
    destruct (N.ltb_spec (224 + u / 4096) 224); [div_lia|].
    destruct (N.ltb_spec (224 + u / 4096) 240); [|div_lia].
    f_equal. div_lia.
Qed.

(** A string is empty exactly when it has no code unit. *)
Lemma code_units_nil (s : string) : UTF16.code_units s = [] <-> s = "".
Proof.
  split; [|now intros ->].
  destruct s as [|b0 [|b1 [|b2 [|b3 rest]]]]; [reflexivity| | | |];
    cbn [UTF16.code_units];
    repeat match goal with
           | |- context [if ?b then _ else _] => destruct b
           end; discriminate.
Qed.

(** The decoder sees an ASCII string as it is. *)
Lemma low_bytes_ascii (s : string) : UTF16.is_ascii s = true -> low_bytes s = s.
Proof.
  unfold low_bytes.
  induction s as [|c rest IH]; [reflexivity|]. cbn [UTF16.is_ascii].
  intros H. apply andb_true_iff in H as [Hc Hrest]. apply N.ltb_lt in Hc.
  rewrite code_units_ascii by assumption. cbn [map string_of_list_ascii].
  rewrite (IH Hrest), N.mod_small by lia. now rewrite ascii_N_embedding.
Qed.

Lemma is_base64_char_ascii (c : ascii) :
  is_base64_char c = true \/ c = "="%char -> (N_of_ascii c <? 128) = true.
Proof.
  intros [H| ->]; [|reflexivity]. revert H.
  destruct c as [[] [] [] [] [] [] [] []]; vm_compute; congruence.
Qed.

(** A valid base64 string is an ASCII string. *)
Lemma is_base64_is_ascii (P : string) : is_base64 P = true -> UTF16.is_ascii P = true.
Proof.
  induction P as [|c0|c0 c1|c0 c1 c2|c0 c1 c2 c3 rest IH] using string_ind4;
    try discriminate; [reflexivity|].
  intros Hvalid. cbn [is_base64] in Hvalid.
  apply andb_true_iff in Hvalid as [Hvalid Hrest].
  apply andb_true_iff in Hvalid as [H0 H1].
  cbn [UTF16.is_ascii].
  rewrite (is_base64_char_ascii c0), (is_base64_char_ascii c1) by now left.
  cbn [andb].
  destruct rest as [|c4 rest].
  - destruct (Ascii.eqb c3 "=") eqn:Hc3.
    + apply Ascii.eqb_eq in Hc3. subst c3.
      destruct (Ascii.eqb c2 "=") eqn:Hc2.
      * apply Ascii.eqb_eq in Hc2. now subst c2.
      * apply andb_true_iff in Hrest as [H2 Hz].
        now rewrite (is_base64_char_ascii c2) by now left.
    + apply andb_true_iff in Hrest as [H2 H3].
      now rewrite (is_base64_char_ascii c2), (is_base64_char_ascii c3) by now left.
  - apply andb_true_iff in Hrest as [Hrest Hvalid].
    apply andb_true_iff in Hrest as [H2 H3].
    rewrite (is_base64_char_ascii c2), (is_base64_char_ascii c3) by now left.
    cbn [andb]. now apply IH.
Qed.

(** *** The two round trips *)

(** Decoding the characters of a valid base64 string and encoding the
    bytes again gives the string back. *)
Lemma toString_bytes_of_sextets (P : string) :
  is_base64 P = true -> toString_base64 (bytes_of_sextets (sextets P)) = P.
Proof.
  induction P as [|c0|c0 c1|c0 c1 c2|c0 c1 c2 c3 rest IH] using string_ind4;
    try discriminate; [reflexivity|].
  intros Hvalid. cbn [is_base64] in Hvalid.
  apply andb_true_iff in Hvalid as [Hvalid Hrest].
  apply andb_true_iff in Hvalid as [H0 H1].
  alphabet c0 n0. alphabet c1 n1.
  destruct rest as [|c4 rest].
  - (* the last group *)
    destruct (Ascii.eqb c3 "=") eqn:Hc3.
    + apply Ascii.eqb_eq in Hc3. subst c3.
      destruct (Ascii.eqb c2 "=") eqn:Hc2.
      * apply Ascii.eqb_eq in Hc2. subst c2.
        rewrite (sextets_cons c0 n0), (sextets_cons c1 n1), sextets_padding by assumption.
        cbn [bytes_of_sextets].
        rewrite encode_one_byte by eauto using low_bits_zero_inv.
        now rewrite Hch, Hch0.
      * apply andb_true_iff in Hrest as [H2 Hz]. alphabet c2 n2.
        rewrite (sextets_cons c0 n0), (sextets_cons c1 n1), (sextets_cons c2 n2),
          sextets_padding by assumption.
        cbn [bytes_of_sextets].
        rewrite encode_two_bytes by eauto using low_bits_zero_inv.
        now rewrite Hch, Hch0, Hch1.
    + apply andb_true_iff in Hrest as [H2 H3]. alphabet c2 n2. alphabet c3 n3.
      rewrite (sextets_cons c0 n0), (sextets_cons c1 n1), (sextets_cons c2 n2),
        (sextets_cons c3 n3) by assumption.
      cbn [sextets bytes_of_sextets].
      rewrite encode_three_bytes by assumption.
      now rewrite Hch, Hch0, Hch1, Hch2.
  - apply andb_true_iff in Hrest as [Hrest Hvalid].
    apply andb_true_iff in Hrest as [H2 H3]. alphabet c2 n2. alphabet c3 n3.
    rewrite (sextets_cons c0 n0), (sextets_cons c1 n1), (sextets_cons c2 n2),
      (sextets_cons c3 n3) by assumption.
    cbn [bytes_of_sextets].
    rewrite encode_three_bytes by assumption.
    rewrite (IH Hvalid).
    now rewrite Hch, Hch0, Hch1, Hch2.
Qed.

Ltac sextet n :=
  let Hal := fresh "Hal" in
  let Hun := fresh "Hun" in
  let Hpad := fresh "Hpad" in
  assert (n < 64) as Hal by div_lia;
  apply base64_char_of_sextet in Hal as (Hal & Hun & Hpad).

Lemma is_base64_full_group (c0 c1 c2 c3 : ascii) (rest : string) :
  is_base64_char c0 = true -> is_base64_char c1 = true ->
  is_base64_char c2 = true -> is_base64_char c3 = true ->
  Ascii.eqb c3 "=" = false ->
  is_base64 rest = true ->
  is_base64 (String c0 (String c1 (String c2 (String c3 rest)))) = true.
Proof.
  intros H0 H1 H2 H3 Hpad Hrest. cbn [is_base64].
  rewrite H0, H1, H2, H3, Hpad. now destruct rest.
Qed.

(** Encoding a buffer and decoding the characters of the string gives the
    buffer back, and the string is a valid base64 string. *)
Lemma bytes_of_sextets_toString (buf : list byte) :
  bytes_of_sextets (sextets (toString_base64 buf)) = buf
  /\ is_base64 (toString_base64 buf) = true.
Proof.
  induction buf as [|a|a b|a b c rest [IHbytes IHvalid]] using list_ind3.
  - split; reflexivity.
  - cbn [toString_base64]. pose proof (to_N_lt_256 a).
    set (x := Byte.to_N a) in *.
    sextet (x / 4). sextet (x mod 4 * 16).
    split.
    + rewrite (sextets_cons _ (x / 4)), (sextets_cons _ (x mod 4 * 16)) by assumption.
      cbn [sextets bytes_of_sextets Ascii.eqb Bool.eqb].
      replace (x / 4 * 4 + x mod 4 * 16 / 16) with x by div_lia.
      subst x. now rewrite byte_of_N_to_N.
    + cbn [is_base64 Ascii.eqb Bool.eqb]. rewrite Hal, Hal0. cbn [andb].
      unfold low_bits_zero. rewrite Hun0. apply N.eqb_eq. div_lia.
  - cbn [toString_base64]. pose proof (to_N_lt_256 a). pose proof (to_N_lt_256 b).
    set (x := Byte.to_N a) in *. set (y := Byte.to_N b) in *.
    sextet (x / 4). sextet (x mod 4 * 16 + y / 16). sextet (y mod 16 * 4).
    split.
    + rewrite (sextets_cons _ (x / 4)), (sextets_cons _ (x mod 4 * 16 + y / 16)),
        (sextets_cons _ (y mod 16 * 4)) by assumption.
      cbn [sextets bytes_of_sextets Ascii.eqb Bool.eqb].
      replace (x / 4 * 4 + (x mod 4 * 16 + y / 16) / 16) with x by div_lia.
      replace ((x mod 4 * 16 + y / 16) mod 16 * 16 + y mod 16 * 4 / 4)
        with y by div_lia.
      subst x y. now rewrite !byte_of_N_to_N.
    + cbn [is_base64 Ascii.eqb Bool.eqb]. rewrite Hal, Hal0, Hal1, Hpad1. cbn [andb].
      unfold low_bits_zero. rewrite Hun1. apply N.eqb_eq. div_lia.
  - cbn [toString_base64].
    pose proof (to_N_lt_256 a). pose proof (to_N_lt_256 b). pose proof (to_N_lt_256 c).
    set (x := Byte.to_N a) in *. set (y := Byte.to_N b) in *.
    set (z := Byte.to_N c) in *.
    sextet (x / 4). sextet (x mod 4 * 16 + y / 16).
    sextet (y mod 16 * 4 + z / 64). sextet (z mod 64).
    split.
    + rewrite (sextets_cons _ (x / 4)), (sextets_cons _ (x mod 4 * 16 + y / 16)),
        (sextets_cons _ (y mod 16 * 4 + z / 64)), (sextets_cons _ (z mod 64))
        by assumption.
      cbn [bytes_of_sextets]. rewrite IHbytes.
      replace (x / 4 * 4 + (x mod 4 * 16 + y / 16) / 16) with x by div_lia.
      replace ((x mod 4 * 16 + y / 16) mod 16 * 16 + (y mod 16 * 4 + z / 64) / 4)
        with y by div_lia.
      replace ((y mod 16 * 4 + z / 64) mod 4 * 64 + z mod 64) with z by div_lia.
      subst x y z. now rewrite !byte_of_N_to_N.
    + now apply is_base64_full_group.
Qed.

(** Decoding a valid base64 string and encoding the bytes again gives the
    string back. *)
Theorem toString_Buffer_from_base64 (P : string) :
  is_base64 P = true -> toString_base64 (Buffer_from_base64 P) = P.
Proof.
  intros H. unfold Buffer_from_base64.
  rewrite low_bytes_ascii by now apply is_base64_is_ascii.
  now apply toString_bytes_of_sextets.
Qed.

(** Encoding a buffer and decoding the string gives the buffer back, and
    the string is a valid base64 string. *)
Theorem Buffer_from_toString_base64 (buf : list byte) :
  Buffer_from_base64 (toString_base64 buf) = buf
  /\ is_base64 (toString_base64 buf) = true.
Proof.
  destruct (bytes_of_sextets_toString buf) as [Hbytes Hvalid].
  split; [|exact Hvalid]. unfold Buffer_from_base64.
  rewrite low_bytes_ascii by now apply is_base64_is_ascii.
  exact Hbytes.
Qed.

(** The valid base64 strings are the strings the encoder produces. *)
Corollary is_base64_iff (P : string) :
  is_base64 P = true <-> exists buf, P = toString_base64 buf.
Proof.
  split.
  - intros H. exists (Buffer_from_base64 P).
    symmetry. now apply toString_Buffer_from_base64.
  - intros [buf ->]. apply Buffer_from_toString_base64.
Qed.

(** The decoder looks a code unit up by its low byte: [Ł] (U+0141) is read
    as [A], the first surrogate of an emoji (U+D83D) as [=], which ends
    the input, and [é] (U+00E9) has no value and is skipped. *)
Example Buffer_from_base64_low_bytes :
  UTF16.code_units "Ł" = [321]
  /\ UTF16.code_units "😀" = [55357; 56832]
  /\ low_bytes "ŁQQ=" = "AQQ="
  /\ toString_base64 (Buffer_from_base64 "ŁQQ=") = "AQQ="
  /\ toString_base64 (Buffer_from_base64 "😀QQ==") = ""
  /\ toString_base64 (Buffer_from_base64 "éQQ==") = "QQ==".
Proof. repeat split. Qed.

End Base64Facts.

(** ** The relay *)

Module RelayFacts.
Import JS Relay.
Local Open Scope list_scope.

Ltac run_handler :=
  unfold elevenLabsWs_on_message, ws_on_message,
    Part000.elevenLabsWs_on_message, Part000.ws_on_message,
    ws_on_close, elevenLabsWs_on_open, elevenLabsWs_on_close,
    elevenLabsWs_on_error, try_catch, bind, lift, ret, read_streamSid,
    assign_streamSid, ws_send, elevenLabsWs_send, elevenLabsWs_close,
    elevenLabsWs_readyState, write, interpolate, JSON_parse.

Lemma get_optional_defined (v x : value) (k : string) :
  get v k = inr x -> get_optional v k = inr x.
Proof. destruct v as [|[]]; cbn; congruence. Qed.

Lemma strict_eq_string_true (v : value) (lit : string) :
  strict_eq_string v lit = true -> v = J (JStr lit).
Proof.
  destruct v as [|[]]; cbn; try discriminate.
  intros H. apply String.eqb_eq in H. now subst.
Qed.

(** *** A callback never reads the console *)

Lemma same_call_refl (s : Session) : same_call s s.
Proof. repeat split. Qed.

Lemma same_call_sym (s1 s2 : Session) : same_call s1 s2 -> same_call s2 s1.
Proof. intros (H1 & H2 & H3). repeat split; congruence. Qed.

Lemma same_call_trans (s1 s2 s3 : Session) :
  same_call s1 s2 -> same_call s2 s3 -> same_call s1 s3.
Proof. intros (H1 & H2 & H3) (H4 & H5 & H6). repeat split; congruence. Qed.

Lemma same_call_logged (line : log_line) (s : Session) : same_call (logged line s) s.
Proof. repeat split. Qed.

Lemma ignores_console_ret {A : Type} (a : A) : ignores_console (ret a).
Proof. intros s1 s2 H. split; [reflexivity | exact H]. Qed.

Lemma ignores_console_lift {A : Type} (r : exn + A) : ignores_console (lift r).
Proof. intros s1 s2 H. split; [reflexivity | exact H]. Qed.

Lemma ignores_console_bind {A B : Type} (c : M A) (k : A -> M B) :
  ignores_console c -> (forall a, ignores_console (k a)) ->
  ignores_console (bind c k).
Proof.
  intros Hc Hk s1 s2 H. unfold bind.
  destruct (Hc s1 s2 H) as [Hres Hsame].
  destruct (c s1) as [[err1|a1] s1'], (c s2) as [[err2|a2] s2'];
    cbn in Hres, Hsame; try discriminate.
  - injection Hres as <-. split; [reflexivity | exact Hsame].
  - injection Hres as <-. now apply Hk.
Qed.

Lemma ignores_console_try_catch (body : M unit) (handler : exn -> M unit) :
  ignores_console body -> (forall err, ignores_console (handler err)) ->
  ignores_console (try_catch body handler).
Proof.
  intros Hbody Hhandler s1 s2 H. unfold try_catch.
  destruct (Hbody s1 s2 H) as [Hres Hsame].
  destruct (body s1) as [[err1|[]] s1'], (body s2) as [[err2|[]] s2'];
    cbn in Hres, Hsame; try discriminate.
  - injection Hres as <-. now apply Hhandler.
  - split; [reflexivity | exact Hsame].
Qed.

Lemma ignores_console_read_streamSid : ignores_console read_streamSid.
Proof. intros s1 s2 H. split; [cbn; f_equal; apply H | exact H]. Qed.

Lemma ignores_console_readyState : ignores_console elevenLabsWs_readyState.
Proof.
  intros s1 s2 H. split; [|exact H].
  cbn. destruct H as (_ & _ & ->). reflexivity.
Qed.

Lemma ignores_console_assign (v : value) : ignores_console (assign_streamSid v).
Proof. intros s1 s2 (H1 & H2 & H3). repeat split; assumption. Qed.

Lemma ignores_console_ws_send (frame : json) : ignores_console (ws_send frame).
Proof. intros s1 s2 (H1 & H2 & H3). repeat split; cbn; congruence. Qed.

Lemma ignores_console_agent_send (frame : json) :
  ignores_console (elevenLabsWs_send frame).
Proof. intros s1 s2 (H1 & H2 & H3). repeat split; cbn; congruence. Qed.

Lemma ignores_console_agent_close : ignores_console elevenLabsWs_close.
Proof. intros s1 s2 (H1 & H2 & H3). repeat split; cbn; congruence. Qed.

Lemma ignores_console_write (line : log_line) : ignores_console (write line).
Proof. intros s1 s2 (H1 & H2 & H3). repeat split; assumption. Qed.

Lemma ignores_console_interpolate (v : value) : ignores_console (interpolate v).
Proof.
  destruct v as [|j]; cbn; [apply ignores_console_ret|].
  destruct (ToString_throws j); [apply ignores_console_lift | apply ignores_console_ret].
Qed.

Lemma elevenLabsWs_on_message_ignores_console (data : JS.message) :
  ignores_console (elevenLabsWs_on_message data).
Proof.
  unfold elevenLabsWs_on_message.
  repeat first
    [ apply ignores_console_try_catch
    | apply ignores_console_bind
    | progress intros
    | match goal with
      | |- ignores_console (if ?b then _ else _) => destruct b
      end
    | apply ignores_console_ret
    | apply ignores_console_lift
    | apply ignores_console_read_streamSid
    | apply ignores_console_ws_send
    | apply ignores_console_agent_send
    | apply ignores_console_write ].
Qed.

Lemma try_catch_write_never_throws (body : M unit) (line : exn -> log_line) (s : Session) :
  fst (try_catch body (fun err => write (line err)) s) = inr tt.
Proof. unfold try_catch. destruct (body s) as [[err|[]] s']; reflexivity. Qed.

(** *** What a callback leaves as it is *)

Section Kept.

Variable R : Session -> Session -> Prop.
Hypothesis R_refl : forall s, R s s.
Hypothesis R_trans : forall s1 s2 s3, R s1 s2 -> R s2 s3 -> R s1 s3.

Lemma keeps_ret {A : Type} (a : A) : keeps R (ret a).
Proof. intros s. apply R_refl. Qed.

Lemma keeps_lift {A : Type} (r : exn + A) : keeps R (lift r).
Proof. intros s. apply R_refl. Qed.

Lemma keeps_read_streamSid : keeps R read_streamSid.
Proof. intros s. apply R_refl. Qed.

Lemma keeps_readyState : keeps R elevenLabsWs_readyState.
Proof. intros s. apply R_refl. Qed.

Lemma keeps_interpolate (v : value) : keeps R (interpolate v).
Proof.
  intros s. destruct v as [|j]; cbn; [apply R_refl|].
  destruct (ToString_throws j); apply R_refl.
Qed.

Lemma keeps_bind {A B : Type} (c : M A) (k : A -> M B) :
  keeps R c -> (forall a, keeps R (k a)) -> keeps R (bind c k).
Proof.
  intros Hc Hk s. unfold bind. specialize (Hc s).
  destruct (c s) as [[err|a] s']; cbn in *; [exact Hc|].
  eapply R_trans; [exact Hc | apply Hk].
Qed.

Lemma keeps_try_catch (body : M unit) (handler : exn -> M unit) :
  keeps R body -> (forall err, keeps R (handler err)) ->
  keeps R (try_catch body handler).
Proof.
  intros Hbody Hhandler s. unfold try_catch. specialize (Hbody s).
  destruct (body s) as [[err|[]] s']; cbn in *; [|exact Hbody].
  eapply R_trans; [exact Hbody | apply Hhandler].
Qed.

End Kept.

Lemma same_carrier_state_refl (s : Session) : same_carrier_state s s.
Proof. reflexivity. Qed.

Lemma same_carrier_state_trans (s1 s2 s3 : Session) :
  same_carrier_state s1 s2 -> same_carrier_state s2 s3 -> same_carrier_state s1 s3.
Proof. unfold same_carrier_state. congruence. Qed.

Ltac keeps_carrier_state :=
  repeat first
    [ apply (keeps_try_catch _ same_carrier_state_trans)
    | apply (keeps_bind _ same_carrier_state_trans)
    | apply (keeps_interpolate _ same_carrier_state_refl)
    | progress intros
    | match goal with
      | |- keeps _ (if ?b then _ else _) => destruct b
      end
    | solve [intro; reflexivity] ].

Lemma elevenLabsWs_on_message_keeps_carrier_state (data : JS.message) :
  keeps same_carrier_state (elevenLabsWs_on_message data).
Proof. unfold elevenLabsWs_on_message. keeps_carrier_state. Qed.

Ltac reduce :=
  cbn -[get get_optional Buffer_from Base64.toString_base64
        Base64.Buffer_from_base64 ToString_throws].

Section Claims.

Variable Buffer_from_object : json -> exn + list byte.

(** C2: a carrier [media] frame with a valid base64 payload [P], handled
    while the agent socket is OPEN, hands exactly one frame to the agent
    socket, [{user_audio_chunk: P}] with the payload as it came: the list
    of frames handed to the agent socket grows by that one frame, and the
    carrier socket, the stream identifier, the state of the agent socket
    and the console stay as they are.  The earlier revision does the
    same. *)
Theorem media_forwards_payload (s : Session) (data : json) (media : value) (P : string) :
  get (J data) "event" = inr (J (JStr "media")) ->
  get (J data) "media" = inr media ->
  get media "payload" = inr (J (JStr P)) ->
  Base64.is_base64 P = true ->
  WebSocket.readyState (elevenLabsWs s) = WebSocket.OPEN ->
  Relay.ws_on_message Buffer_from_object (JsonText data) s =
    (inr tt,
     {| streamSid := streamSid s;
        ws := ws s;
        elevenLabsWs :=
          {| WebSocket.readyState := WebSocket.readyState (elevenLabsWs s);
             WebSocket.sent :=
               WebSocket.sent (elevenLabsWs s) ++ [JObj [("user_audio_chunk", JStr P)]] |};
        console := console s |})
  /\ Part000.ws_on_message Buffer_from_object (JsonText data) s =
    (inr tt,
     {| streamSid := streamSid s;
        ws := ws s;
        elevenLabsWs :=
          {| WebSocket.readyState := WebSocket.readyState (elevenLabsWs s);
             WebSocket.sent :=
               WebSocket.sent (elevenLabsWs s) ++ [JObj [("user_audio_chunk", JStr P)]] |};
        console := console s |}).
Proof.
  intros Hevent Hmedia Hpayload Hvalid Hopen.
  split; run_handler;
    rewrite Hevent; cbn -[get]; rewrite Hopen; cbn -[get];
    rewrite Hmedia, Hpayload; cbn -[Base64.toString_base64 Base64.Buffer_from_base64];
    rewrite Base64Facts.toString_Buffer_from_base64 by assumption;
    unfold agent_bound, WebSocket.send; rewrite Hopen; reflexivity.
Qed.

(** C5: a carrier [media] frame handled while the agent socket is not
    OPEN leaves the session as it is: no frame is handed to either socket,
    nothing is kept for later, nothing is thrown and nothing is written to
    the console; the earlier revision does the same. *)
Theorem media_dropped_unless_open (s : Session) (data : json) :
  get (J data) "event" = inr (J (JStr "media")) ->
  WebSocket.readyState (elevenLabsWs s) <> WebSocket.OPEN ->
  Relay.ws_on_message Buffer_from_object (JsonText data) s = (inr tt, s)
  /\ Part000.ws_on_message Buffer_from_object (JsonText data) s = (inr tt, s).
Proof.
  intros Hevent Hclosed.
  assert (Hguard : WebSocket.ReadyState_eqb
                     (WebSocket.readyState (elevenLabsWs s)) WebSocket.OPEN = false)
    by (destruct (WebSocket.readyState (elevenLabsWs s));
        [reflexivity | contradiction | reflexivity | reflexivity]).
  split; run_handler;
    rewrite Hevent; cbn -[get]; rewrite Hguard; cbn -[get];
    try rewrite Hevent; reflexivity.
Qed.

(** C6: a carrier [stop] frame calls [close()] on the agent socket and does
    nothing else: the carrier socket is not closed, no frame is handed to
    either socket, and the stream identifier stays as it is; the earlier
    revision does the same. *)
Theorem stop_closes_agent (s : Session) (data : json) :
  get (J data) "event" = inr (J (JStr "stop")) ->
  Relay.ws_on_message Buffer_from_object (JsonText data) s =
    (inr tt, agent_closed s)
  /\ Part000.ws_on_message Buffer_from_object (JsonText data) s =
    (inr tt, agent_closed s)
  /\ WebSocket.closing_or_closed (elevenLabsWs (agent_closed s)) = true
  /\ ws (agent_closed s) = ws s
  /\ WebSocket.sent (elevenLabsWs (agent_closed s)) = WebSocket.sent (elevenLabsWs s)
  /\ streamSid (agent_closed s) = streamSid s
  /\ console (agent_closed s) = console s.
Proof.
  intros Hevent.
  repeat split; try (run_handler; rewrite Hevent; cbn -[get];
                     try rewrite Hevent; reflexivity).
  - cbn. destruct (elevenLabsWs s) as [[] frames]; reflexivity.
  - cbn. destruct (elevenLabsWs s) as [[] frames]; reflexivity.
Qed.

(** C10: a carrier [start] frame without a [start] property makes the
    property access throw a TypeError, which the callback catches and
    writes to the console; no frame is handed to either socket, no socket
    is closed, and the stream identifier keeps its value. *)
Theorem start_without_start_object (s : Session) (data : json) :
  get (J data) "event" = inr (J (JStr "start")) ->
  get (J data) "start" = inr undefined ->
  Relay.ws_on_message Buffer_from_object (JsonText data) s =
    (inr tt, logged (console_error "[Twilio] Error:" (Thrown TypeError)) s)
  /\ Part000.ws_on_message Buffer_from_object (JsonText data) s =
    (inr tt, logged (console_error "[Twilio] Error:" (Thrown TypeError)) s)
  /\ same_call (logged (console_error "[Twilio] Error:" (Thrown TypeError)) s) s.
Proof.
  intros Hevent Hstart.
  repeat split; run_handler; rewrite Hevent; cbn -[get]; rewrite Hstart; reflexivity.
Qed.

Lemma ws_on_message_ignores_console (msg : JS.message) :
  ignores_console (Relay.ws_on_message Buffer_from_object msg).
Proof.
  unfold Relay.ws_on_message.
  repeat first
    [ apply ignores_console_try_catch
    | apply ignores_console_bind
    | progress intros
    | match goal with
      | |- ignores_console (if ?b then _ else _) => destruct b
      end
    | apply ignores_console_ret
    | apply ignores_console_lift
    | apply ignores_console_read_streamSid
    | apply ignores_console_readyState
    | apply ignores_console_assign
    | apply ignores_console_interpolate
    | apply ignores_console_agent_send
    | apply ignores_console_agent_close
    | apply ignores_console_write ].
Qed.

Lemma dispatch_ignores_console (e : event) :
  ignores_console (Relay.dispatch Buffer_from_object e).
Proof.
  destruct e; cbn [Relay.dispatch].
  - apply ws_on_message_ignores_console.
  - intros s1 s2 (H1 & H2 & H3). repeat split; cbn; congruence.
  - intros s1 s2 (H1 & H2 & H3). repeat split; cbn; congruence.
  - apply elevenLabsWs_on_message_ignores_console.
  - intros s1 s2 (H1 & H2 & H3). repeat split; cbn; congruence.
  - apply ignores_console_write.
Qed.

Lemma step_same_call (e : event) (s1 s2 : Session) :
  same_call s1 s2 ->
  same_call (Relay.step Buffer_from_object e s1) (Relay.step Buffer_from_object e s2).
Proof. intros H. apply (dispatch_ignores_console e s1 s2 H). Qed.

Lemma run_same_call (events : list event) (s1 s2 : Session) :
  same_call s1 s2 ->
  same_call (Relay.run Buffer_from_object events s1)
    (Relay.run Buffer_from_object events s2).
Proof.
  revert s1 s2. induction events as [|e events IH]; intros s1 s2 H; [exact H|].
  apply IH. now apply step_same_call.
Qed.

Lemma dispatch_never_throws (e : event) (s : Session) :
  fst (Relay.dispatch Buffer_from_object e s) = inr tt.
Proof.
  destruct e; cbn [Relay.dispatch]; try reflexivity.
  - apply (try_catch_write_never_throws _
             (fun err => console_error "[Twilio] Error:" (Thrown err))).
  - apply (try_catch_write_never_throws _
             (fun err => console_error "[II] Parse error:" (Thrown err))).
Qed.

(** The relay never closes the carrier socket: only the carrier's own
    [close] event changes its state. *)
Lemma relay_never_closes_carrier (e : event) (s : Session) :
  e <> CarrierClose ->
  WebSocket.readyState (ws (Relay.step Buffer_from_object e s)) =
    WebSocket.readyState (ws s).
Proof.
  intros He. unfold Relay.step.
  destruct e; cbn [Relay.dispatch]; try reflexivity.
  - assert (H : keeps same_carrier_state
                  (Relay.ws_on_message Buffer_from_object msg))
      by (unfold Relay.ws_on_message; keeps_carrier_state).
    apply H.
  - contradiction.
  - apply elevenLabsWs_on_message_keeps_carrier_state.
Qed.

(** C7: a message that is no JSON text, on either socket, is reported on
    the console and otherwise ignored: the callback returns normally (as
    the callback of every event does), no frame is handed to either socket,
    the stream identifier and the two sockets stay as they are, and every
    later sequence of events is handled as if the message had not come. *)
Theorem malformed_message_dropped (raw : string) (s : Session) :
  Relay.ws_on_message Buffer_from_object (NotJson raw) s =
    (inr tt, logged (console_error "[Twilio] Error:" (Thrown SyntaxError)) s)
  /\ elevenLabsWs_on_message (NotJson raw) s =
    (inr tt, logged (console_error "[II] Parse error:" (Thrown SyntaxError)) s)
  /\ Part000.ws_on_message Buffer_from_object (NotJson raw) s =
    (inr tt, logged (console_error "[Twilio] Error:" (Thrown SyntaxError)) s)
  /\ Part000.elevenLabsWs_on_message (NotJson raw) s =
    (inr tt, logged (console_error "[II] Parse error:" (Thrown SyntaxError)) s)
  /\ (forall e s', fst (Relay.dispatch Buffer_from_object e s') = inr tt)
  /\ same_call (Relay.step Buffer_from_object (CarrierMessage (NotJson raw)) s) s
  /\ same_call (Relay.step Buffer_from_object (AgentMessage (NotJson raw)) s) s
  /\ (forall events,
        same_call
          (Relay.run Buffer_from_object events
             (Relay.step Buffer_from_object (CarrierMessage (NotJson raw)) s))
          (Relay.run Buffer_from_object events s)
        /\ same_call
             (Relay.run Buffer_from_object events
                (Relay.step Buffer_from_object (AgentMessage (NotJson raw)) s))
             (Relay.run Buffer_from_object events s)).
Proof.
  do 4 (split; [reflexivity|]).
  split; [apply dispatch_never_throws|].
  split; [apply same_call_logged|]. split; [apply same_call_logged|].
  intros events. split; apply run_same_call, same_call_logged.
Qed.

(** C3, as the code has it: the stream identifier after an event is the
    one a carrier [start] frame carries in [start.streamSid], whether or
    not an identifier was assigned before; every other event, and a
    [start] frame without a [start] property, leaves it as it is. *)
Theorem streamSid_assigned_by_start (e : event) (s : Session) :
  streamSid (Relay.step Buffer_from_object e s) =
    match start_streamSid e with
    | Some sid => sid
    | None => streamSid s
    end.
Proof.
  unfold Relay.step.
  destruct e as [[data|raw]| | |[data|raw]| |description]; try reflexivity.
  - cbn [Relay.dispatch start_streamSid]. unfold Relay.ws_on_message. run_handler.
    destruct (get (J data) "event") as [err|type] eqn:Hevent; [reflexivity|].
    destruct (strict_eq_string type "start") eqn:Hstart.
    + destruct (get (J data) "start") as [err|start]; [reflexivity|].
      destruct (get start "streamSid") as [err|[|sid]]; try reflexivity.
      reduce. destruct (ToString_throws sid); reflexivity.
    + destruct (strict_eq_string type "media").
      * reduce. destruct (WebSocket.ReadyState_eqb _ _); reduce.
        -- destruct (get (J data) "media") as [err|media]; [reflexivity|].
           destruct (get media "payload") as [err|payload]; [reflexivity|].
           destruct (Buffer_from Buffer_from_object payload); reflexivity.
        -- destruct (strict_eq_string type "stop"); reflexivity.
      * reduce. destruct (strict_eq_string type "stop"); reflexivity.
  - cbn [Relay.dispatch start_streamSid]. run_handler.
    destruct (get (J data) "type") as [err|type]; [reflexivity|].
    destruct (strict_eq_string type "audio").
    + destruct (get (J data) "audio_event") as [err|audio_event]; [reflexivity|].
      destruct (get_optional audio_event "audio_base_64") as [err|b]; [reflexivity|].
      reduce. destruct (ToBoolean b); reduce.
      * destruct (get audio_event "audio_base_64"); reflexivity.
      * destruct (strict_eq_string type "interruption"); [reflexivity|].
        destruct (strict_eq_string type "ping"); [|reflexivity].
        destruct (get (J data) "ping_event") as [err|ping_event]; [reflexivity|].
        destruct (get_optional ping_event "event_id") as [err|x]; [reflexivity|].
        reduce. destruct (ToBoolean x); [|reflexivity].
        destruct (get ping_event "event_id"); reflexivity.
    + reduce. destruct (strict_eq_string type "interruption"); [reflexivity|].
      destruct (strict_eq_string type "ping"); [|reflexivity].
      destruct (get (J data) "ping_event") as [err|ping_event]; [reflexivity|].
      destruct (get_optional ping_event "event_id") as [err|x]; [reflexivity|].
      reduce. destruct (ToBoolean x); [|reflexivity].
      destruct (get ping_event "event_id"); reflexivity.
Qed.





(** The two revisions of the carrier callback do the same. *)
Lemma Part000_ws_on_message_agrees (msg : JS.message) (s : Session) :
  Part000.ws_on_message Buffer_from_object msg s =
    Relay.ws_on_message Buffer_from_object msg s.
Proof.
  destruct msg as [data|raw]; [|reflexivity].
  run_handler.
  destruct (get (J data) "event") as [err|type]; [reflexivity|].
  destruct (strict_eq_string type "start"); [reflexivity|].
  destruct (strict_eq_string type "media") eqn:Hmedia; reduce; [|reflexivity].
  destruct (WebSocket.ReadyState_eqb _ _); reduce; [reflexivity|].
  apply strict_eq_string_true in Hmedia as ->. reflexivity.
Qed.

End Claims.

Ltac agree :=
  split; [reflexivity | first [apply same_call_refl | apply same_call_logged]].

(** The two revisions of the agent callback do the same to the stream
    identifier and to the sockets; the earlier one also reports a frame of
    a type it does not handle. *)
Lemma Part000_elevenLabsWs_on_message_agrees (data : JS.message) (s : Session) :
  fst (Part000.elevenLabsWs_on_message data s) = fst (elevenLabsWs_on_message data s)
  /\ same_call (snd (Part000.elevenLabsWs_on_message data s))
       (snd (elevenLabsWs_on_message data s)).
Proof.
  destruct data as [message|raw]; [|agree].
  run_handler.
  destruct (get (J message) "type") as [err|type] eqn:Htype; [agree|].
  destruct (strict_eq_string type "audio") eqn:Haudio.
  - destruct (get (J message) "audio_event") as [err|audio_event]; [agree|].
    destruct (get_optional audio_event "audio_base_64") as [err|b]; [agree|].
    reduce. destruct (ToBoolean b); reduce.
    + destruct (get audio_event "audio_base_64"); agree.
    + apply strict_eq_string_true in Haudio as ->. agree.
  - reduce. destruct (strict_eq_string type "interruption"); [agree|].
    destruct (strict_eq_string type "ping").
    + destruct (get (J message) "ping_event") as [err|ping_event]; [agree|].
      destruct (get_optional ping_event "event_id") as [err|x]; [agree|].
      reduce. destruct (ToBoolean x); reduce; [|agree].
      destruct (get ping_event "event_id"); agree.
    + reduce. agree.
Qed.

(** C4, as the code has it: an agent [ping] frame whose [event_id] is a
    non-empty string [x] hands exactly one frame to the agent socket,
    [{type: "pong", event_id: x}], whatever the stream identifier is: the
    list of frames handed to the agent socket grows by that one frame, and
    the carrier socket (so also the frames handed to it), the stream
    identifier and the console stay as they are.  The earlier revision
    does the same. *)
Theorem ping_answered_with_pong
  (s : Session) (message : json) (ping_event : value) (x : string) :
  get (J message) "type" = inr (J (JStr "ping")) ->
  get (J message) "ping_event" = inr ping_event ->
  get ping_event "event_id" = inr (J (JStr x)) ->
  x <> "" ->
  elevenLabsWs_on_message (JsonText message) s =
    (inr tt,
     {| streamSid := streamSid s;
        ws := ws s;
        elevenLabsWs :=
          {| WebSocket.readyState := WebSocket.readyState (elevenLabsWs s);
             WebSocket.sent :=
               WebSocket.sent (elevenLabsWs s)
                 ++ [JObj [("type", JStr "pong"); ("event_id", JStr x)]] |};
        console := console s |})
  /\ Part000.elevenLabsWs_on_message (JsonText message) s =
    (inr tt,
     {| streamSid := streamSid s;
        ws := ws s;
        elevenLabsWs :=
          {| WebSocket.readyState := WebSocket.readyState (elevenLabsWs s);
             WebSocket.sent :=
               WebSocket.sent (elevenLabsWs s)
                 ++ [JObj [("type", JStr "pong"); ("event_id", JStr x)]] |};
        console := console s |}).
Proof.
  intros Htype Hping Hid Hx.
  destruct x as [|c x]; [contradiction|].
  split; run_handler; rewrite Htype; reduce;
    rewrite Hping, (get_optional_defined _ _ _ Hid); reduce;
    rewrite ?Hping, Hid; reflexivity.
Qed.

(** C8: an agent [audio] frame with a non-empty payload [P], received
    while the stream identifier is the string [S], hands exactly one frame
    to the carrier socket,
    [{event: "media", streamSid: S, media: {payload: P}}] with the payload
    as it came: the list of frames handed to the carrier socket grows by
    that one frame, and the agent socket, the stream identifier, the state
    of the carrier socket and the console stay as they are.  The earlier
    revision does the same. *)
Theorem audio_forwarded_to_carrier
  (s : Session) (message : json) (audio_event : value) (P S : string) :
  get (J message) "type" = inr (J (JStr "audio")) ->
  get (J message) "audio_event" = inr audio_event ->
  get audio_event "audio_base_64" = inr (J (JStr P)) ->
  P <> "" ->
  streamSid s = J (JStr S) ->
  elevenLabsWs_on_message (JsonText message) s =
    (inr tt,
     {| streamSid := J (JStr S);
        ws :=
          {| WebSocket.readyState := WebSocket.readyState (ws s);
             WebSocket.sent :=
               WebSocket.sent (ws s)
                 ++ [JObj [("event", JStr "media"); ("streamSid", JStr S);
                           ("media", JObj [("payload", JStr P)])]] |};
        elevenLabsWs := elevenLabsWs s;
        console := console s |})
  /\ Part000.elevenLabsWs_on_message (JsonText message) s =
    (inr tt,
     {| streamSid := J (JStr S);
        ws :=
          {| WebSocket.readyState := WebSocket.readyState (ws s);
             WebSocket.sent :=
               WebSocket.sent (ws s)
                 ++ [JObj [("event", JStr "media"); ("streamSid", JStr S);
                           ("media", JObj [("payload", JStr P)])]] |};
        elevenLabsWs := elevenLabsWs s;
        console := console s |}).
Proof.
  intros Htype Haudio Hpayload HP Hsid.
  destruct P as [|c P]; [contradiction|].
  split; run_handler; rewrite Htype; reduce;
    rewrite Haudio, (get_optional_defined _ _ _ Hpayload); reduce;
    rewrite ?Haudio, Hpayload; unfold carrier_bound; rewrite Hsid; reflexivity.
Qed.

Lemma media_forwards_payload_witness :
  WebSocket.sent
    (elevenLabsWs
       (snd (Relay.ws_on_message no_objects (JsonText (media_frame "SGVsbG8="))
               open_session))) =
    [JObj [("user_audio_chunk", JStr "SGVsbG8=")]]
  /\ WebSocket.sent
       (ws (snd (Relay.ws_on_message no_objects (JsonText (media_frame "SGVsbG8="))
                   open_session))) = [].
Proof.
  rewrite (proj1 (media_forwards_payload no_objects open_session
                    (media_frame "SGVsbG8=")
                    (J (JObj [("payload", JStr "SGVsbG8=")])) "SGVsbG8="
                    eq_refl eq_refl eq_refl eq_refl eq_refl)).
  split; reflexivity.
Defined.

(** C9: an agent frame of type [interruption] hands exactly one frame to
    the carrier socket, [{event: "clear", streamSid}] with the session's
    current identifier: the list of frames handed to the carrier socket
    grows by that one frame, and everything else stays as it is.  With a
    string identifier [S] the frame is [{event: "clear", streamSid: S}];
    while the identifier is still the initial [null] the frame is sent all
    the same and is [{event: "clear", streamSid: null}].  The earlier
    revision does the same. *)
Theorem interruption_sends_clear (s : Session) (message : json) :
  get (J message) "type" = inr (J (JStr "interruption")) ->
  elevenLabsWs_on_message (JsonText message) s =
    (inr tt,
     {| streamSid := streamSid s;
        ws :=
          {| WebSocket.readyState := WebSocket.readyState (ws s);
             WebSocket.sent :=
               WebSocket.sent (ws s)
                 ++ [JSON_stringify
                       [("event", J (JStr "clear")); ("streamSid", streamSid s)]] |};
        elevenLabsWs := elevenLabsWs s;
        console := console s |})
  /\ Part000.elevenLabsWs_on_message (JsonText message) s =
     elevenLabsWs_on_message (JsonText message) s
  /\ (forall S,
        WebSocket.sent
          (ws (snd (elevenLabsWs_on_message (JsonText message)
                      (with_streamSid (J (JStr S)) s)))) =
        WebSocket.sent (ws s)
          ++ [JObj [("event", JStr "clear"); ("streamSid", JStr S)]])
  /\ WebSocket.sent
       (ws (snd (elevenLabsWs_on_message (JsonText message)
                   (with_streamSid (J JNull) s)))) =
     WebSocket.sent (ws s) ++ [JObj [("event", JStr "clear"); ("streamSid", JNull)]]
  /\ (forall sid,
        WebSocket.sent
          (elevenLabsWs (snd (elevenLabsWs_on_message (JsonText message)
                                (with_streamSid sid s)))) =
        WebSocket.sent (elevenLabsWs s)).
Proof.
  intros Htype.
  repeat split; intros; run_handler; rewrite Htype; reflexivity.
Qed.

Lemma interruption_sends_clear_witness :
  WebSocket.sent
    (ws (snd (elevenLabsWs_on_message (JsonText interruption_frame)
                (with_streamSid (J (JStr "SID123")) open_session)))) =
    [JObj [("event", JStr "clear"); ("streamSid", JStr "SID123")]]
  /\ WebSocket.sent
       (ws (snd (elevenLabsWs_on_message (JsonText interruption_frame) new_session))) =
     [JObj [("event", JStr "clear"); ("streamSid", JNull)]].
Proof.
  split.
  - apply (proj1 (proj2 (proj2 (interruption_sends_clear open_session
                                   interruption_frame eq_refl))) "SID123").
  - rewrite (proj1 (interruption_sends_clear new_session interruption_frame eq_refl)).
    reflexivity.
Defined.

(** *** Closed instances *)

Lemma media_dropped_unless_open_witness :
  Relay.ws_on_message no_objects (JsonText (media_frame "SGVsbG8=")) new_session =
    (inr tt, new_session).
Proof.
  apply (media_dropped_unless_open no_objects new_session (media_frame "SGVsbG8="));
    [reflexivity | discriminate].
Defined.

Lemma stop_closes_agent_witness :
  Relay.ws_on_message no_objects (JsonText stop_frame) open_session =
    (inr tt, agent_closed open_session)
  /\ WebSocket.readyState (elevenLabsWs (agent_closed open_session)) = WebSocket.CLOSING
  /\ WebSocket.readyState (ws (agent_closed open_session)) = WebSocket.OPEN.
Proof.
  split; [|split; reflexivity].
  apply (stop_closes_agent no_objects open_session stop_frame). reflexivity.
Defined.

Lemma start_without_start_object_witness :
  Relay.ws_on_message no_objects (JsonText (JObj [("event", JStr "start")])) open_session =
    (inr tt, logged (console_error "[Twilio] Error:" (Thrown TypeError)) open_session).
Proof.
  apply (start_without_start_object no_objects open_session
           (JObj [("event", JStr "start")])); reflexivity.
Defined.

Lemma ping_answered_with_pong_witness :
  WebSocket.sent
    (elevenLabsWs (snd (elevenLabsWs_on_message (JsonText (ping_frame "42")) open_session)))
    = [JObj [("type", JStr "pong"); ("event_id", JStr "42")]]
  /\ WebSocket.sent
       (ws (snd (elevenLabsWs_on_message (JsonText (ping_frame "42")) open_session)))
     = [].
Proof.
  rewrite (proj1 (ping_answered_with_pong open_session (ping_frame "42")
                    (J (JObj [("event_id", JStr "42")])) "42"
                    eq_refl eq_refl eq_refl
                    (fun H : "42" = "" => eq_ind "42"
                       (fun t => match t with EmptyString => False | String _ _ => True end)
                       I "" H))).
  split; reflexivity.
Defined.

Lemma audio_forwarded_to_carrier_witness :
  WebSocket.sent
    (ws (snd (elevenLabsWs_on_message (JsonText (audio_frame "AB"))
                (with_streamSid (J (JStr "SID123")) open_session)))) =
    [JObj [("event", JStr "media"); ("streamSid", JStr "SID123");
           ("media", JObj [("payload", JStr "AB")])]]
  /\ WebSocket.sent
       (elevenLabsWs (snd (elevenLabsWs_on_message (JsonText (audio_frame "AB"))
                             (with_streamSid (J (JStr "SID123")) open_session)))) = [].
Proof.
  rewrite (proj1 (audio_forwarded_to_carrier
                    (with_streamSid (J (JStr "SID123")) open_session)
                    (audio_frame "AB") (J (JObj [("audio_base_64", JStr "AB")]))
                    "AB" "SID123" eq_refl eq_refl eq_refl
                    (fun H : "AB" = "" => eq_ind "AB"
                       (fun t => match t with EmptyString => False | String _ _ => True end)
                       I "" H)
                    eq_refl)).
  split; reflexivity.
Defined.


(** C3 fails as stated: a second [start] frame replaces the identifier the
    first one assigned. *)
Lemma second_start_reassigns_streamSid :
  streamSid (Relay.run no_objects [CarrierMessage (JsonText (start_frame "MZ1"))]
               new_session) = J (JStr "MZ1")
  /\ streamSid (Relay.run no_objects
                  [CarrierMessage (JsonText (start_frame "MZ1"));
                   CarrierMessage (JsonText (start_frame "MZ2"))]
                  new_session) = J (JStr "MZ2")
  /\ J (JStr "MZ2") <> J (JStr "MZ1").
Proof. repeat split. discriminate. Qed.

(** C4 fails as stated: a [ping] frame whose [event_id] is the empty
    string is not answered. *)
Lemma ping_with_empty_event_id_unanswered :
  elevenLabsWs_on_message (JsonText (ping_frame "")) open_session =
    (inr tt, open_session)
  /\ WebSocket.sent (elevenLabsWs (snd (elevenLabsWs_on_message
                                          (JsonText (ping_frame "")) open_session))) = [].
Proof. split; reflexivity. Qed.

(** *** Runs of a whole call *)

Example a_call :
  let s :=
    Relay.run no_objects
      [AgentOpen;
       CarrierMessage (JsonText (start_frame "SID123"));
       CarrierMessage (JsonText (media_frame "SGVsbG8="));
       AgentMessage (JsonText (audio_frame "AB"));
       AgentMessage (JsonText interruption_frame);
       AgentMessage (JsonText (ping_frame "7"));
       CarrierMessage (JsonText stop_frame);
       CarrierClose;
       AgentClose]
      new_session in
  streamSid s = J (JStr "SID123")
  /\ WebSocket.sent (elevenLabsWs s) =
       [JObj [("user_audio_chunk", JStr "SGVsbG8=")];
        JObj [("type", JStr "pong"); ("event_id", JStr "7")]]
  /\ WebSocket.sent (ws s) =
       [JObj [("event", JStr "media"); ("streamSid", JStr "SID123");
              ("media", JObj [("payload", JStr "AB")])];
        JObj [("event", JStr "clear"); ("streamSid", JStr "SID123")]]
  /\ WebSocket.readyState (ws s) = WebSocket.CLOSED
  /\ WebSocket.readyState (elevenLabsWs s) = WebSocket.CLOSED.
Proof. repeat split. Qed.

(** Before a [start] frame the carrier-bound frames carry [null]; a
    [start] frame without an identifier leaves them without the property;
    media that comes before the agent socket is open is lost. *)
Example frames_before_start :
  WebSocket.sent (ws (Relay.run no_objects
                        [AgentOpen; AgentMessage (JsonText (audio_frame "AB"))]
                        new_session)) =
    [JObj [("event", JStr "media"); ("streamSid", JNull);
           ("media", JObj [("payload", JStr "AB")])]]
  /\ WebSocket.sent (ws (Relay.run no_objects
                           [AgentOpen;
                            CarrierMessage (JsonText (JObj [("event", JStr "start");
                                                            ("start", JObj [])]));
                            AgentMessage (JsonText interruption_frame)]
                           new_session)) =
    [JObj [("event", JStr "clear")]]
  /\ WebSocket.sent (elevenLabsWs (Relay.run no_objects
                                     [CarrierMessage (JsonText (media_frame "SGVsbG8="));
                                      AgentOpen]
                                     new_session)) = [].
Proof. repeat split. Qed.

(** A payload that is not in canonical form reaches the agent in canonical
    form. *)
Example media_payload_normalised :
  WebSocket.sent (elevenLabsWs (Relay.run no_objects
                                  [AgentOpen; CarrierMessage (JsonText (media_frame "QQ"))]
                                  new_session)) =
    [JObj [("user_audio_chunk", JStr "QQ==")]].
Proof. reflexivity. Qed.

Example ToBoolean_zero : ToBoolean (J (JNum 0%float)) = false.
Proof. reflexivity. Qed.

Example toString_base64_A : Base64.toString_base64 ["A"%byte] = "QQ=="%string.
Proof. reflexivity. Qed.

Example from_base64_urlsafe :
  Base64.toString_base64 (Base64.Buffer_from_base64 "-_-_") = "+/+/"%string.
Proof. reflexivity. Qed.

Example is_base64_examples :
  Base64.is_base64 "SGVsbG8=" = true /\ Base64.is_base64 "QR==" = false
  /\ Base64.is_base64 "QQ" = false.
Proof. repeat split. Qed.

End RelayFacts.

(** ** More on the relay: what it emits, what it ignores *)

Module RelayCoverage.
Import JS Relay Frames.
Import RelayFacts.
Local Open Scope list_scope.

(** Writing a value that was written and read back changes nothing. *)
Lemma serialized_idempotent : forall j, serialized (serialized j) = serialized j.
Proof.
  fix IH 1. intros [| b | n | str | items | fields]; cbn [serialized];
    try reflexivity.
  - destruct (PrimFloat.is_finite n) eqn:Hfinite; [|reflexivity].
    destruct (PrimFloat.is_zero n) eqn:Hzero; cbn [serialized].
    + reflexivity.
    + now rewrite Hfinite, Hzero.
  - f_equal. induction items as [|item items IHitems]; [reflexivity|].
    cbn [map]. now rewrite IH, IHitems.
  - f_equal. induction fields as [|[k v] fields IHfields]; [reflexivity|].
    cbn [map fst snd]. now rewrite IH, IHfields.
Qed.

(** What is written of a truthy value is truthy or [null]. *)
Lemma serialized_truthy (j : json) :
  ToBoolean (J j) = true -> truthy_or_null (serialized j) = true.
Proof.
  destruct j as [| b | n | str | items | fields]; cbn [serialized];
    try (intros H; exact H); try discriminate.
  cbn [ToBoolean]. intros Htruthy.
  destruct (PrimFloat.is_finite n); [|reflexivity].
  destruct (PrimFloat.is_zero n) eqn:Hzero; [discriminate|].
  unfold truthy_or_null. cbn [ToBoolean]. rewrite Hzero. exact Htruthy.
Qed.

Lemma carrier_frame_as_written (f : json) :
  carrier_frame f -> carrier_frame_written f.
Proof.
  intros [(sid & payload & Htruthy & ->) | (sid & ->)].
  - left. exists (serialized payload). split; [now apply serialized_truthy|].
    unfold carrier_media, JSON_stringify.
    destruct sid as [|sid]; cbn [defined_properties serialized map fst snd];
      rewrite serialized_idempotent; [left | right; exists (serialized sid)];
      reflexivity.
  - right. destruct sid as [|sid]; [left | right; exists (serialized sid)];
      reflexivity.
Qed.

Lemma agent_frame_as_written (f : json) :
  agent_frame f -> agent_frame_written f.
Proof.
  intros [(buf & ->) | (event_id & Htruthy & ->)].
  - left. exists (Base64.toString_base64 buf).
    split; [apply Base64Facts.Buffer_from_toString_base64 | reflexivity].
  - right. exists (serialized event_id).
    split; [now apply serialized_truthy | reflexivity].
Qed.

Section Coverage.

Variable Buffer_from_object : json -> exn + list byte.

Lemma emits_nothing_logged (line : log_line) (s : Session) :
  emits s (logged line s) Nothing.
Proof. split; reflexivity. Qed.

Lemma emits_nothing_refl (s : Session) : emits s s Nothing.
Proof. split; reflexivity. Qed.

Lemma ToBoolean_defined (v : value) :
  ToBoolean v = true -> exists j, v = J j.
Proof. destruct v as [|j]; [discriminate | now exists j]. Qed.

Lemma get_optional_truthy (v b : value) (k : string) :
  get_optional v k = inr b -> ToBoolean b = true -> get v k = inr b.
Proof.
  destruct v as [|[]]; cbn; intros H Hb; try exact H;
    injection H as <-; discriminate.
Qed.

Ltac emits_nothing :=
  exists Nothing; first [apply emits_nothing_refl | apply emits_nothing_logged].

(** What the agent's message callback emits. *)
Lemma elevenLabsWs_on_message_emits (data : JS.message) (s : Session) :
  exists o, emits s (snd (elevenLabsWs_on_message data s)) o.
Proof.
  destruct data as [message|raw]; [|emits_nothing].
  run_handler.
  destruct (get (J message) "type") as [err|type]; [emits_nothing|].
  destruct (strict_eq_string type "audio") eqn:Haudio.
  - destruct (get (J message) "audio_event") as [err|audio_event]; [emits_nothing|].
    destruct (get_optional audio_event "audio_base_64") as [err|b] eqn:Hb;
      [emits_nothing|].
    reduce. destruct (ToBoolean b) eqn:Htruthy; reduce.
    + rewrite (get_optional_truthy _ _ _ Hb Htruthy).
      destruct (ToBoolean_defined _ Htruthy) as [payload ->].
      exists (ToCarrier (carrier_media (streamSid s) payload)).
      repeat split. left. now exists (streamSid s), payload.
    + apply strict_eq_string_true in Haudio as ->. emits_nothing.
  - reduce. destruct (strict_eq_string type "interruption").
    + exists (ToCarrier (carrier_clear (streamSid s))).
      repeat split. right. now exists (streamSid s).
    + destruct (strict_eq_string type "ping"); [|emits_nothing].
      destruct (get (J message) "ping_event") as [err|ping_event]; [emits_nothing|].
      destruct (get_optional ping_event "event_id") as [err|x] eqn:Hx;
        [emits_nothing|].
      reduce. destruct (ToBoolean x) eqn:Htruthy; [|emits_nothing].
      rewrite (get_optional_truthy _ _ _ Hx Htruthy).
      destruct (ToBoolean_defined _ Htruthy) as [event_id ->].
      exists (ToAgent (agent_pong event_id)).
      repeat split. right. now exists event_id.
Qed.

(** What the carrier's message callback emits. *)
Lemma ws_on_message_emits (msg : JS.message) (s : Session) :
  exists o, emits s (snd (Relay.ws_on_message Buffer_from_object msg s)) o.
Proof.
  destruct msg as [data|raw]; [|emits_nothing].
  run_handler.
  destruct (get (J data) "event") as [err|event]; [emits_nothing|].
  destruct (strict_eq_string event "start").
  - destruct (get (J data) "start") as [err|start]; [emits_nothing|].
    destruct (get start "streamSid") as [err|[|sid]]; [emits_nothing| |].
    + exists Nothing. split; reflexivity.
    + reduce. destruct (ToString_throws sid); exists Nothing; split; reflexivity.
  - destruct (strict_eq_string event "media"); reduce.
    + destruct (WebSocket.ReadyState_eqb _ _); reduce.
      * destruct (get (J data) "media") as [err|media]; [emits_nothing|].
        destruct (get media "payload") as [err|payload]; [emits_nothing|].
        destruct (Buffer_from Buffer_from_object payload) as [err|buf];
          [emits_nothing|].
        exists (ToAgent (agent_chunk buf)). repeat split. left. now exists buf.
      * destruct (strict_eq_string event "stop"); exists Nothing; split;
          first [reflexivity | cbn; now destruct (elevenLabsWs s) as [[] frames]].
    + destruct (strict_eq_string event "stop"); exists Nothing; split;
        first [reflexivity | cbn; now destruct (elevenLabsWs s) as [[] frames]].
Qed.

Lemma step_emits (e : event) (s : Session) :
  exists o, emits s (Relay.step Buffer_from_object e s) o.
Proof.
  unfold Relay.step. destruct e; cbn [Relay.dispatch].
  - apply ws_on_message_emits.
  - exists Nothing. split; cbn; [reflexivity|].
    now destruct (elevenLabsWs s) as [[] frames].
  - exists Nothing. split; reflexivity.
  - apply elevenLabsWs_on_message_emits.
  - exists Nothing. split; reflexivity.
  - exists Nothing. split; reflexivity.
Qed.

(** X1: one event hands at most one frame to the sockets: the frames
    handed over before stay where they are, in their order, and at most
    one frame is added at the end of one of the two lists. *)
Theorem one_event_at_most_one_frame (e : event) (s : Session) :
  (WebSocket.sent (ws (Relay.step Buffer_from_object e s)) = WebSocket.sent (ws s)
   /\ WebSocket.sent (elevenLabsWs (Relay.step Buffer_from_object e s))
      = WebSocket.sent (elevenLabsWs s))
  \/ (exists f,
        WebSocket.sent (ws (Relay.step Buffer_from_object e s))
        = WebSocket.sent (ws s) ++ [f]
        /\ WebSocket.sent (elevenLabsWs (Relay.step Buffer_from_object e s))
           = WebSocket.sent (elevenLabsWs s))
  \/ (exists f,
        WebSocket.sent (ws (Relay.step Buffer_from_object e s)) = WebSocket.sent (ws s)
        /\ WebSocket.sent (elevenLabsWs (Relay.step Buffer_from_object e s))
           = WebSocket.sent (elevenLabsWs s) ++ [f]).
Proof.
  destruct (step_emits e s) as [[|f|f] H]; cbn in H.
  - left. exact H.
  - right. left. exists f. split; apply H.
  - right. right. exists f. split; apply H.
Qed.

(** Whatever the events of a call are, the frames handed to the two
    sockets are those the callbacks build. *)
Lemma run_emits_protocol_frames (events : list event) (s : Session) :
  Forall carrier_frame (WebSocket.sent (ws s)) ->
  Forall agent_frame (WebSocket.sent (elevenLabsWs s)) ->
  Forall carrier_frame
    (WebSocket.sent (ws (Relay.run Buffer_from_object events s)))
  /\ Forall agent_frame
       (WebSocket.sent (elevenLabsWs (Relay.run Buffer_from_object events s))).
Proof.
  revert s. induction events as [|e events IH]; intros s Hc Ha; [now split|].
  cbn [Relay.run]. apply IH;
    destruct (step_emits e s) as [[|f|f] H]; cbn in H;
    destruct H as (Hws & Hagent); try destruct Hagent as (Hagent & Hshape);
    rewrite ?Hws, ?Hagent; try assumption;
    apply Forall_app; split; try assumption; constructor; auto.
Qed.

(** X2: whatever the events of a call are, every frame on the carrier
    socket is [{event: "media", streamSid, media: {payload}}] or
    [{event: "clear", streamSid}], where the [streamSid] property may be
    missing and the payload is truthy or [null]; every frame on the agent
    socket is [{user_audio_chunk: c}] with [c] a valid base64 string, or
    [{type: "pong", event_id}] with an identifier that is truthy or
    [null]. *)
Theorem only_protocol_frames (events : list event) :
  Forall carrier_frame_written
    (WebSocket.sent (ws (Relay.run Buffer_from_object events new_session)))
  /\ Forall agent_frame_written
       (WebSocket.sent (elevenLabsWs (Relay.run Buffer_from_object events new_session))).
Proof.
  destruct (run_emits_protocol_frames events new_session
              (Forall_nil _) (Forall_nil _)) as [Hcarrier Hagent].
  split.
  - eapply Forall_impl; [apply carrier_frame_as_written | exact Hcarrier].
  - eapply Forall_impl; [apply agent_frame_as_written | exact Hagent].
Qed.

(** X3: a carrier [media] frame whose payload is any string [P], handled
    while the agent socket is OPEN, hands exactly one frame to the agent
    socket, [{user_audio_chunk: c}] with [c] the chunk
    [Buffer.from(P, "base64").toString("base64")], and nothing else
    changes.  That chunk is always a valid base64 string, it decodes to the
    bytes [P] decodes to, and sending it through the relay again would give
    the same chunk. *)
Theorem media_payload_canonical
  (s : Session) (data : json) (media : value) (P : string) :
  get (J data) "event" = inr (J (JStr "media")) ->
  get (J data) "media" = inr media ->
  get media "payload" = inr (J (JStr P)) ->
  WebSocket.readyState (elevenLabsWs s) = WebSocket.OPEN ->
  Relay.ws_on_message Buffer_from_object (JsonText data) s =
    (inr tt,
     {| streamSid := streamSid s;
        ws := ws s;
        elevenLabsWs :=
          {| WebSocket.readyState := WebSocket.readyState (elevenLabsWs s);
             WebSocket.sent :=
               WebSocket.sent (elevenLabsWs s)
                 ++ [JObj [("user_audio_chunk",
                            JStr (Base64.toString_base64
                                    (Base64.Buffer_from_base64 P)))]] |};
        console := console s |})
  /\ Part000.ws_on_message Buffer_from_object (JsonText data) s =
     Relay.ws_on_message Buffer_from_object (JsonText data) s
  /\ Base64.is_base64 (Base64.toString_base64 (Base64.Buffer_from_base64 P)) = true
  /\ Base64.Buffer_from_base64 (Base64.toString_base64 (Base64.Buffer_from_base64 P))
     = Base64.Buffer_from_base64 P
  /\ normalised P = Base64.toString_base64 (Base64.Buffer_from_base64 P)
  /\ normalised (normalised P) = normalised P.
Proof.
  intros Hevent Hmedia Hpayload Hopen.
  pose proof (Base64Facts.Buffer_from_toString_base64 (Base64.Buffer_from_base64 P))
    as [Hbytes Hvalid].
  split; [|split]; [| |split; [exact Hvalid | split; [exact Hbytes|split]]].
  - run_handler. rewrite Hevent; cbn -[get]; rewrite Hopen; cbn -[get].
    rewrite Hmedia, Hpayload.
    unfold agent_bound, WebSocket.send. cbn -[Base64.toString_base64
      Base64.Buffer_from_base64]. rewrite Hopen. reflexivity.
  - apply Part000_ws_on_message_agrees.
  - reflexivity.
  - unfold normalised. now rewrite Hbytes.
Qed.

(** A carrier message handled while the agent socket is not OPEN hands
    nothing to either socket and does not open the agent socket. *)
Lemma ws_on_message_while_not_open (msg : JS.message) (s : Session) :
  WebSocket.readyState (elevenLabsWs s) <> WebSocket.OPEN ->
  WebSocket.sent (ws (snd (Relay.ws_on_message Buffer_from_object msg s)))
    = WebSocket.sent (ws s)
  /\ WebSocket.sent (elevenLabsWs (snd (Relay.ws_on_message Buffer_from_object msg s)))
     = WebSocket.sent (elevenLabsWs s)
  /\ WebSocket.readyState (elevenLabsWs (snd (Relay.ws_on_message Buffer_from_object msg s)))
     <> WebSocket.OPEN.
Proof.
  intros Hclosed.
  assert (Hguard : WebSocket.ReadyState_eqb
                     (WebSocket.readyState (elevenLabsWs s)) WebSocket.OPEN = false)
    by (destruct (WebSocket.readyState (elevenLabsWs s));
        [reflexivity | contradiction | reflexivity | reflexivity]).
  assert (Hclose :
    WebSocket.sent (WebSocket.close (elevenLabsWs s)) = WebSocket.sent (elevenLabsWs s)
    /\ WebSocket.readyState (WebSocket.close (elevenLabsWs s)) <> WebSocket.OPEN)
    by (destruct (elevenLabsWs s) as [[] frames]; split;
        first [reflexivity | discriminate | assumption]).
  destruct msg as [data|raw]; [|now repeat split].
  run_handler.
  destruct (get (J data) "event") as [err|event]; [now repeat split|].
  destruct (strict_eq_string event "start").
  - destruct (get (J data) "start") as [err|start]; [now repeat split|].
    destruct (get start "streamSid") as [err|[|sid]]; try (now repeat split).
    reduce. destruct (ToString_throws sid); now repeat split.
  - destruct (strict_eq_string event "media"); reduce; rewrite ?Hguard; reduce;
      (destruct (strict_eq_string event "stop"); [|now repeat split]);
      cbn; repeat split; solve [reflexivity | apply Hclose].
Qed.

Lemma carrier_run_while_not_open (msgs : list JS.message) (s : Session) :
  WebSocket.readyState (elevenLabsWs s) <> WebSocket.OPEN ->
  WebSocket.sent
    (elevenLabsWs (Relay.run Buffer_from_object (map CarrierMessage msgs) s))
    = WebSocket.sent (elevenLabsWs s)
  /\ WebSocket.sent (ws (Relay.run Buffer_from_object (map CarrierMessage msgs) s))
     = WebSocket.sent (ws s)
  /\ WebSocket.readyState
       (elevenLabsWs (Relay.run Buffer_from_object (map CarrierMessage msgs) s))
     <> WebSocket.OPEN.
Proof.
  revert s. induction msgs as [|msg msgs IH]; intros s Hclosed; [now repeat split|].
  cbn [map Relay.run].
  destruct (ws_on_message_while_not_open msg s Hclosed) as (Hws & Hagent & Hstill).
  fold (Relay.dispatch Buffer_from_object (CarrierMessage msg) s) in Hws, Hagent, Hstill.
  fold (Relay.step Buffer_from_object (CarrierMessage msg) s) in Hws, Hagent, Hstill.
  destruct (IH _ Hstill) as (IHagent & IHws & IHstill).
  repeat split; [now rewrite IHagent | now rewrite IHws | exact IHstill].
Qed.

(** X4: while the agent socket is not OPEN (still connecting, closing or
    closed), no sequence of carrier messages makes the relay hand a frame
    to either socket: media is lost, not kept for later, and the agent
    socket is still not OPEN afterwards. *)
Theorem carrier_messages_lost_while_not_open (msgs : list JS.message) (s : Session) :
  WebSocket.readyState (elevenLabsWs s) <> WebSocket.OPEN ->
  WebSocket.sent
    (elevenLabsWs (Relay.run Buffer_from_object (map CarrierMessage msgs) s))
    = WebSocket.sent (elevenLabsWs s)
  /\ WebSocket.sent (ws (Relay.run Buffer_from_object (map CarrierMessage msgs) s))
     = WebSocket.sent (ws s)
  /\ WebSocket.readyState
       (elevenLabsWs (Relay.run Buffer_from_object (map CarrierMessage msgs) s))
     <> WebSocket.OPEN.
Proof. apply carrier_run_while_not_open. Qed.

(** X5: after a carrier [stop] frame, whatever the carrier sends next is
    not forwarded: the agent socket is handed no further frame. *)
Theorem nothing_forwarded_after_stop
  (data : json) (msgs : list JS.message) (s : Session) :
  get (J data) "event" = inr (J (JStr "stop")) ->
  WebSocket.sent
    (elevenLabsWs
       (Relay.run Buffer_from_object
          (CarrierMessage (JsonText data) :: map CarrierMessage msgs) s))
    = WebSocket.sent (elevenLabsWs s).
Proof.
  intros Hstop. cbn [Relay.run]. unfold Relay.step at 1. cbn [Relay.dispatch].
  assert (Hrun : Relay.ws_on_message Buffer_from_object (JsonText data) s
                 = (inr tt, agent_closed s))
    by (run_handler; rewrite Hstop; cbn -[get]; rewrite ?Hstop; reflexivity).
  rewrite Hrun. cbn [snd].
  assert (Hclosed : WebSocket.readyState (elevenLabsWs (agent_closed s))
                    <> WebSocket.OPEN)
    by (cbn; destruct (elevenLabsWs s) as [[] frames]; discriminate).
  destruct (carrier_run_while_not_open msgs (agent_closed s) Hclosed) as [H _].
  rewrite H. cbn. now destruct (elevenLabsWs s) as [[] frames].
Qed.

(** X11: a carrier [media] frame handled while the agent socket is OPEN
    whose [media] property is missing or [null], or whose payload is
    missing, [null], a boolean or a number, makes the callback throw a
    TypeError that it catches: one line is written to the console and no
    frame is handed to either socket. *)
Theorem media_without_usable_payload (s : Session) (data : json) (media : value) :
  get (J data) "event" = inr (J (JStr "media")) ->
  get (J data) "media" = inr media ->
  match get media "payload" with
  | inl _ => True
  | inr payload => not_a_buffer_source payload = true
  end ->
  WebSocket.readyState (elevenLabsWs s) = WebSocket.OPEN ->
  Relay.ws_on_message Buffer_from_object (JsonText data) s =
    (inr tt, logged (console_error "[Twilio] Error:" (Thrown TypeError)) s)
  /\ Part000.ws_on_message Buffer_from_object (JsonText data) s =
    (inr tt, logged (console_error "[Twilio] Error:" (Thrown TypeError)) s).
Proof.
  intros Hevent Hmedia Hpayload Hopen.
  split; run_handler; rewrite Hevent; cbn -[get]; rewrite Hopen; cbn -[get];
    rewrite Hmedia;
    (destruct (get media "payload") as [[]|payload] eqn:Hget;
     [destruct media as [|[]]; discriminate
     |reflexivity
     |destruct payload as [|[]]; try discriminate; reflexivity]).
Qed.

(** X8: a carrier message whose [event] is none of [start], [media] and
    [stop] (or that has no [event] at all) leaves the session as it is,
    console included; the earlier revision does the same. *)
Theorem unknown_carrier_event_ignored (s : Session) (data : json) (event : value) :
  get (J data) "event" = inr event ->
  known_carrier_event event = false ->
  Relay.ws_on_message Buffer_from_object (JsonText data) s = (inr tt, s)
  /\ Part000.ws_on_message Buffer_from_object (JsonText data) s = (inr tt, s).
Proof.
  intros Hevent Hunknown. unfold known_carrier_event in Hunknown.
  apply orb_false_iff in Hunknown as [Hunknown Hstop].
  apply orb_false_iff in Hunknown as [Hstart Hmedia].
  split; run_handler; rewrite Hevent; cbn -[get]; rewrite Hstart; cbn -[get];
    rewrite ?Hevent; cbn -[get]; rewrite Hmedia; cbn -[get];
    rewrite ?Hevent; cbn -[get]; rewrite Hstop; reflexivity.
Qed.

(** X9: a carrier message that is valid JSON but not an
    object is dropped; a number, a boolean, a string or an array silently,
    and [null] with a TypeError written to the console. *)
Theorem carrier_message_not_an_object (s : Session) (data : json) :
  is_object data = false ->
  Relay.ws_on_message Buffer_from_object (JsonText data) s =
    (inr tt,
     match data with
     | JNull => logged (console_error "[Twilio] Error:" (Thrown TypeError)) s
     | _ => s
     end)
  /\ Part000.ws_on_message Buffer_from_object (JsonText data) s =
     Relay.ws_on_message Buffer_from_object (JsonText data) s.
Proof.
  intros Hobject. destruct data; try discriminate; split; reflexivity.
Qed.

(** X14: the relay does not change the state of the carrier socket, which
    only the carrier's own [close] event changes, and it never brings the
    agent socket back: once that socket is closing or closed it stays so
    through every event but the platform's [open]. *)
Theorem socket_states_kept (e : event) (s : Session) :
  match e with
  | CarrierClose => True
  | _ =>
      WebSocket.readyState (ws (Relay.step Buffer_from_object e s))
      = WebSocket.readyState (ws s)
  end
  /\ match e with
     | AgentOpen => True
     | _ =>
         WebSocket.closing_or_closed (elevenLabsWs s) = true ->
         WebSocket.closing_or_closed
           (elevenLabsWs (Relay.step Buffer_from_object e s)) = true
     end.
Proof.
  split.
  - destruct e; try exact I;
      apply (RelayFacts.relay_never_closes_carrier Buffer_from_object); discriminate.
  - assert (Hkeep : forall msg, keeps
      (fun s s' => WebSocket.closing_or_closed (elevenLabsWs s) = true ->
                   WebSocket.closing_or_closed (elevenLabsWs s') = true)
      (Relay.ws_on_message Buffer_from_object msg)).
    { intros msg. unfold Relay.ws_on_message.
      repeat first
        [ apply keeps_try_catch; [intros s1 s2 s3 H12 H23 H1; auto| |]
        | apply keeps_bind; [intros s1 s2 s3 H12 H23 H1; auto| |]
        | apply keeps_interpolate; [intros s1 H1; exact H1]
        | progress intros
        | match goal with
          | |- keeps _ (if ?b then _ else _) => destruct b
          end
        | solve [intros s1 H1; cbn in *;
                 destruct (elevenLabsWs s1) as [[] frames]; solve [exact H1 | reflexivity]] ]. }
    assert (Hkeep' : forall data, keeps
      (fun s s' => WebSocket.closing_or_closed (elevenLabsWs s) = true ->
                   WebSocket.closing_or_closed (elevenLabsWs s') = true)
      (elevenLabsWs_on_message data)).
    { intros data. unfold elevenLabsWs_on_message.
      repeat first
        [ apply keeps_try_catch; [intros s1 s2 s3 H12 H23 H1; auto| |]
        | apply keeps_bind; [intros s1 s2 s3 H12 H23 H1; auto| |]
        | progress intros
        | match goal with
          | |- keeps _ (if ?b then _ else _) => destruct b
          end
        | solve [intros s1 H1; cbn in *;
                 destruct (elevenLabsWs s1) as [[] frames]; solve [exact H1 | reflexivity]] ]. }
    unfold Relay.step. destruct e; cbn [Relay.dispatch]; try exact I.
    + apply Hkeep.
    + intros _. cbn. now destruct (elevenLabsWs s) as [[] frames].
    + apply Hkeep'.
    + intros _. reflexivity.
    + intros H. exact H.
Qed.

End Coverage.

(** X6: an agent [audio] frame whose [audio_event] is missing or [null],
    or whose [audio_base_64] is missing, empty or otherwise falsy, leaves
    the session as it is: nothing is handed to the carrier socket and
    nothing is written to the console; the earlier revision does the
    same. *)
Theorem audio_without_payload_ignored
  (s : Session) (message : json) (audio_event audio_base_64 : value) :
  get (J message) "type" = inr (J (JStr "audio")) ->
  get (J message) "audio_event" = inr audio_event ->
  get_optional audio_event "audio_base_64" = inr audio_base_64 ->
  ToBoolean audio_base_64 = false ->
  elevenLabsWs_on_message (JsonText message) s = (inr tt, s)
  /\ Part000.elevenLabsWs_on_message (JsonText message) s = (inr tt, s).
Proof.
  intros Htype Haudio Hpayload Hfalsy.
  split; run_handler; rewrite Htype; reduce; rewrite Haudio, Hpayload; reduce;
    rewrite Hfalsy; reduce; rewrite ?Htype; reflexivity.
Qed.

(** X7: an agent frame whose [type] is none of [audio], [interruption] and
    [ping] (or that has no [type]) hands nothing to either socket.  The
    callback of index.js leaves the session as it is; the earlier revision
    writes the type to the console. *)
Theorem unknown_agent_frame_ignored (s : Session) (message : json) (type : value) :
  get (J message) "type" = inr type ->
  known_agent_type type = false ->
  elevenLabsWs_on_message (JsonText message) s = (inr tt, s)
  /\ Part000.elevenLabsWs_on_message (JsonText message) s =
    (inr tt, logged (console_log "[II] Unhandled:" (Shown type)) s).
Proof.
  intros Htype Hunknown. unfold known_agent_type in Hunknown.
  apply orb_false_iff in Hunknown as [Hunknown Hping].
  apply orb_false_iff in Hunknown as [Haudio Hinterruption].
  split; run_handler; rewrite Htype; reduce; rewrite Haudio; reduce;
    rewrite ?Htype; reduce; rewrite Hinterruption; reduce;
    rewrite ?Htype; reduce; rewrite Hping; reduce; rewrite ?Htype; reflexivity.
Qed.

(** X15: an agent message that is valid JSON but not an object
    hands nothing to either socket; [null] is reported on the console as a
    parse error (a TypeError), anything else is dropped silently by
    index.js. *)
Theorem agent_message_not_an_object (s : Session) (message : json) :
  is_object message = false ->
  elevenLabsWs_on_message (JsonText message) s =
    (inr tt,
     match message with
     | JNull => logged (console_error "[II] Parse error:" (Thrown TypeError)) s
     | _ => s
     end).
Proof.
  intros Hobject. destruct message; try discriminate; reflexivity.
Qed.

(** X10: an agent [ping] frame whose identifier is truthy is answered
    whatever the JSON type of the identifier is (the agent's identifiers
    are numbers): exactly one frame [{type: "pong", event_id}] is handed to
    the agent socket, with the identifier as [JSON.stringify] writes it (so
    a number that is not finite is answered with [null]), nothing is
    handed to the carrier socket, and nothing else changes.  The earlier
    revision does the same. *)
Theorem ping_echoes_any_truthy_identifier
  (s : Session) (message : json) (ping_event : value) (event_id : json) :
  get (J message) "type" = inr (J (JStr "ping")) ->
  get (J message) "ping_event" = inr ping_event ->
  get ping_event "event_id" = inr (J event_id) ->
  ToBoolean (J event_id) = true ->
  elevenLabsWs_on_message (JsonText message) s =
    (inr tt,
     {| streamSid := streamSid s;
        ws := ws s;
        elevenLabsWs :=
          {| WebSocket.readyState := WebSocket.readyState (elevenLabsWs s);
             WebSocket.sent :=
               WebSocket.sent (elevenLabsWs s)
                 ++ [JObj [("type", JStr "pong"); ("event_id", serialized event_id)]] |};
        console := console s |})
  /\ Part000.elevenLabsWs_on_message (JsonText message) s =
     elevenLabsWs_on_message (JsonText message) s.
Proof.
  intros Htype Hping Hid Htruthy.
  split; run_handler; rewrite Htype; reduce;
    rewrite Hping, (get_optional_defined _ _ _ Hid); cbn -[get ToBoolean];
    rewrite Htruthy; reduce; rewrite ?Hping, Hid; reflexivity.
Qed.

(** X12: the callbacks of the earlier revision (written with [switch]) and
    those of index.js (written with [if]) treat every message alike: the
    carrier callbacks give the same session, and the agent callbacks give
    the same stream identifier and sockets and throw in the same cases. *)
Theorem revisions_agree
  (Buffer_from_object : json -> exn + list byte) (m : JS.message) (s : Session) :
  Part000.ws_on_message Buffer_from_object m s =
    Relay.ws_on_message Buffer_from_object m s
  /\ fst (Part000.elevenLabsWs_on_message m s) = fst (elevenLabsWs_on_message m s)
  /\ same_call (snd (Part000.elevenLabsWs_on_message m s))
       (snd (elevenLabsWs_on_message m s)).
Proof.
  split; [apply Part000_ws_on_message_agrees|].
  apply Part000_elevenLabsWs_on_message_agrees.
Qed.





(** *** Closed instances *)

Lemma media_payload_canonical_witness :
  WebSocket.sent
    (elevenLabsWs
       (snd (Relay.ws_on_message no_objects (JsonText (media_frame "QQ")) open_session)))
  = [JObj [("user_audio_chunk", JStr "QQ==")]]
  /\ WebSocket.sent
       (elevenLabsWs
          (snd (Relay.ws_on_message no_objects (JsonText (media_frame "ŁQQ="))
                  open_session)))
     = [JObj [("user_audio_chunk", JStr "AQQ=")]].
Proof.
  split.
  - rewrite (proj1 (media_payload_canonical no_objects open_session (media_frame "QQ")
                      (J (JObj [("payload", JStr "QQ")])) "QQ"
                      eq_refl eq_refl eq_refl eq_refl)).
    reflexivity.
  - rewrite (proj1 (media_payload_canonical no_objects open_session
                      (media_frame "ŁQQ=")
                      (J (JObj [("payload", JStr "ŁQQ=")])) "ŁQQ="
                      eq_refl eq_refl eq_refl eq_refl)).
    reflexivity.
Defined.

Lemma carrier_messages_lost_while_not_open_witness :
  WebSocket.sent
    (elevenLabsWs
       (Relay.run no_objects
          (map CarrierMessage
             [JsonText (start_frame "MZ1"); JsonText (media_frame "SGVsbG8=");
              NotJson "{"; JsonText (media_frame "QQ==")])
          new_session)) = [].
Proof.
  apply (carrier_messages_lost_while_not_open no_objects
           [JsonText (start_frame "MZ1"); JsonText (media_frame "SGVsbG8=");
            NotJson "{"; JsonText (media_frame "QQ==")] new_session).
  discriminate.
Defined.

Lemma nothing_forwarded_after_stop_witness :
  WebSocket.sent
    (elevenLabsWs
       (Relay.run no_objects
          (CarrierMessage (JsonText stop_frame)
             :: map CarrierMessage [JsonText (media_frame "SGVsbG8=")])
          open_session)) = [].
Proof.
  apply (nothing_forwarded_after_stop no_objects stop_frame
           [JsonText (media_frame "SGVsbG8=")] open_session eq_refl).
Defined.

Lemma audio_without_payload_ignored_witness :
  elevenLabsWs_on_message (JsonText (audio_frame "")) open_session = (inr tt, open_session)
  /\ elevenLabsWs_on_message (JsonText (JObj [("type", JStr "audio")])) open_session
     = (inr tt, open_session).
Proof.
  split.
  - apply (audio_without_payload_ignored open_session (audio_frame "")
             (J (JObj [("audio_base_64", JStr "")])) (J (JStr ""))
             eq_refl eq_refl eq_refl eq_refl).
  - apply (audio_without_payload_ignored open_session (JObj [("type", JStr "audio")])
             undefined undefined eq_refl eq_refl eq_refl eq_refl).
Defined.

Lemma unknown_agent_frame_ignored_witness :
  elevenLabsWs_on_message
    (JsonText (JObj [("type", JStr "conversation_initiation_metadata")])) open_session
  = (inr tt, open_session).
Proof.
  apply (unknown_agent_frame_ignored open_session
           (JObj [("type", JStr "conversation_initiation_metadata")])
           (J (JStr "conversation_initiation_metadata")) eq_refl eq_refl).
Defined.

Lemma unknown_carrier_event_ignored_witness :
  Relay.ws_on_message no_objects (JsonText (JObj [("event", JStr "connected")]))
    open_session = (inr tt, open_session).
Proof.
  apply (unknown_carrier_event_ignored no_objects open_session
           (JObj [("event", JStr "connected")]) (J (JStr "connected")) eq_refl eq_refl).
Defined.

Lemma carrier_message_not_an_object_witness :
  Relay.ws_on_message no_objects (JsonText JNull) open_session =
    (inr tt, logged (console_error "[Twilio] Error:" (Thrown TypeError)) open_session)
  /\ Relay.ws_on_message no_objects (JsonText (JArr [JStr "media"])) open_session =
     (inr tt, open_session).
Proof.
  split.
  - apply (carrier_message_not_an_object no_objects open_session JNull eq_refl).
  - apply (carrier_message_not_an_object no_objects open_session
             (JArr [JStr "media"]) eq_refl).
Defined.

Lemma agent_message_not_an_object_witness :
  elevenLabsWs_on_message (JsonText JNull) open_session =
    (inr tt, logged (console_error "[II] Parse error:" (Thrown TypeError)) open_session)
  /\ elevenLabsWs_on_message (JsonText (JStr "ping")) open_session =
     (inr tt, open_session).
Proof.
  split.
  - apply (agent_message_not_an_object open_session JNull eq_refl).
  - apply (agent_message_not_an_object open_session (JStr "ping") eq_refl).
Defined.

Lemma ping_echoes_any_truthy_identifier_witness :
  WebSocket.sent
    (elevenLabsWs
       (snd (elevenLabsWs_on_message
               (JsonText (JObj [("type", JStr "ping");
                                ("ping_event", JObj [("event_id", JNum 42%float)])]))
               open_session)))
  = [JObj [("type", JStr "pong"); ("event_id", JNum 42%float)]]
  /\ WebSocket.sent
       (elevenLabsWs
          (snd (elevenLabsWs_on_message
                  (JsonText (JObj [("type", JStr "ping");
                                   ("ping_event",
                                    JObj [("event_id", JNum PrimFloat.infinity)])]))
                  open_session)))
     = [JObj [("type", JStr "pong"); ("event_id", JNull)]].
Proof.
  split.
  - rewrite (proj1 (ping_echoes_any_truthy_identifier open_session
                      (JObj [("type", JStr "ping");
                             ("ping_event", JObj [("event_id", JNum 42%float)])])
                      (J (JObj [("event_id", JNum 42%float)])) (JNum 42%float)
                      eq_refl eq_refl eq_refl eq_refl)).
    reflexivity.
  - rewrite (proj1 (ping_echoes_any_truthy_identifier open_session
                      (JObj [("type", JStr "ping");
                             ("ping_event", JObj [("event_id", JNum PrimFloat.infinity)])])
                      (J (JObj [("event_id", JNum PrimFloat.infinity)]))
                      (JNum PrimFloat.infinity)
                      eq_refl eq_refl eq_refl eq_refl)).
    reflexivity.
Defined.

Lemma media_without_usable_payload_witness :
  Relay.ws_on_message no_objects (JsonText (JObj [("event", JStr "media")])) open_session =
    (inr tt, logged (console_error "[Twilio] Error:" (Thrown TypeError)) open_session)
  /\ Relay.ws_on_message no_objects
       (JsonText (JObj [("event", JStr "media");
                        ("media", JObj [("payload", JBool false)])])) open_session =
     (inr tt, logged (console_error "[Twilio] Error:" (Thrown TypeError)) open_session).
Proof.
  split.
  - apply (media_without_usable_payload no_objects open_session
             (JObj [("event", JStr "media")]) undefined eq_refl eq_refl I eq_refl).
  - apply (media_without_usable_payload no_objects open_session
             (JObj [("event", JStr "media");
                    ("media", JObj [("payload", JBool false)])])
             (J (JObj [("payload", JBool false)])) eq_refl eq_refl eq_refl eq_refl).
Defined.


End RelayCoverage.

(** ** The HTTP routes *)

Module RoutesFacts.
Import JS Routes.
Local Open Scope list_scope.

Ltac run_route :=
  unfold make_outbound_call, call, api_analyze, analyze, try_catch, bind, ret, js,
    write, await, interpolate.

(** *** Objects as lists of properties *)

Lemma own_property_without (k c : string) (fields : list (string * json)) :
  own_property k (without c fields) =
    if String.eqb c k then undefined else own_property k fields.
Proof.
  unfold without.
  induction fields as [|[k' v] fields IH]; cbn [filter own_property fst];
    [now destruct (String.eqb c k)|].
  destruct (String.eqb c k') eqn:Hck'; cbn [negb own_property].
  - rewrite IH. destruct (String.eqb c k) eqn:Hck; [reflexivity|].
    apply String.eqb_eq in Hck'. subst k'.
    now rewrite String.eqb_sym, Hck.
  - destruct (String.eqb k k') eqn:Hkk'; [|exact IH].
    apply String.eqb_eq in Hkk'. subst k'. now rewrite Hck'.
Qed.

Lemma own_property_set_property (k k' : string) (v : json) (fields : list (string * json)) :
  own_property k (set_property k' v fields) =
    if String.eqb k k' then J v else own_property k fields.
Proof.
  induction fields as [|[k0 v0] fields IH]; cbn.
  - now destruct (String.eqb k k').
  - destruct (String.eqb k' k0) eqn:Hk'; cbn.
    + apply String.eqb_eq in Hk'. subst k0.
      now destruct (String.eqb k k').
    + destruct (String.eqb k k0) eqn:Hk; [|exact IH].
      apply String.eqb_eq in Hk. subst k0.
      now rewrite String.eqb_sym, Hk'.
Qed.

Lemma own_property_serialized (k : string) (fields : list (string * json)) :
  own_property k (map (fun kv => (fst kv, serialized (snd kv))) fields) =
    match own_property k fields with
    | J j => J (serialized j)
    | undefined => undefined
    end.
Proof.
  induction fields as [|[k' v] fields IH]; cbn; [reflexivity|].
  now destruct (String.eqb k k').
Qed.

Lemma has_own_property_iff (k : string) (fields : list (string * json)) :
  has_own_property k fields = false <-> own_property k fields = undefined.
Proof.
  induction fields as [|[k' v] fields IH]; cbn; [tauto|].
  destruct (String.eqb k k'); cbn; [split; discriminate | exact IH].
Qed.

(** *** [/make-outbound-call] and [/call] *)

(** X16: [/make-outbound-call] with a body whose [to] is missing, empty
    or otherwise falsy answers 400 [{error: "Phone number required"}];
    Twilio is not asked and nothing is written to the console. *)
Theorem outbound_call_needs_number
  (env : Env) (service : request -> settled) (req_body to : value) (w : World) :
  get req_body "to" = inr to ->
  ToBoolean to = false ->
  make_outbound_call env service req_body w =
    (inr {| status := 400; body := JObj [("error", JStr "Phone number required")] |}, w).
Proof.
  intros Hto Hfalsy. run_route. rewrite Hto, Hfalsy. reflexivity.
Qed.

(** X17: [/make-outbound-call] with a truthy [to] asks Twilio exactly
    once, for a call to [to] as it came (no check that it is a phone
    number) whose webhook is [PUBLIC_URL/incoming-call-eleven].  When
    Twilio creates the call the answer is 200 with the call's [sid]; when
    it refuses, the answer is 500 with a fixed body, and the reason goes to
    the console only. *)
Theorem outbound_call_asks_twilio
  (env : Env) (service : request -> settled) (req_body to : value) (w : World) :
  get req_body "to" = inr to ->
  ToBoolean to = true ->
  requests (snd (make_outbound_call env service req_body w)) =
    requests w
      ++ [TwilioCallsCreate (PUBLIC_URL env ++ "/incoming-call-eleven")%string to
            (TWILIO_PHONE_NUMBER env)]
  /\ (forall created sid,
        service (TwilioCallsCreate (PUBLIC_URL env ++ "/incoming-call-eleven")%string to
                   (TWILIO_PHONE_NUMBER env)) = Resolved created ->
        get (J created) "sid" = inr (J (JStr sid)) ->
        fst (make_outbound_call env service req_body w) =
          inr {| status := 200;
                 body := JObj [("message", JStr "Call initiated");
                               ("callSid", JStr sid)] |})
  /\ (forall err,
        service (TwilioCallsCreate (PUBLIC_URL env ++ "/incoming-call-eleven")%string to
                   (TWILIO_PHONE_NUMBER env)) = Rejected err ->
        make_outbound_call env service req_body w =
          (inr {| status := 500; body := JObj [("error", JStr "Failed to initiate call")] |},
           {| requests :=
                requests w
                  ++ [TwilioCallsCreate (PUBLIC_URL env ++ "/incoming-call-eleven")%string
                        to (TWILIO_PHONE_NUMBER env)];
              console := console w ++ [console_error "[Twilio] Call error:" err] |})).
Proof.
  intros Hto Htruthy.
  split; [|split].
  - run_route. rewrite Hto, Htruthy. cbn -[get].
    destruct (service _) as [created|err]; [|reflexivity].
    destruct (get (J created) "sid") as [e|[|sid]]; try reflexivity.
    cbn -[get]. destruct (ToString_throws sid); reflexivity.
  - intros created sid Hservice Hsid. run_route.
    rewrite Hto, Htruthy. cbn -[get]. rewrite Hservice, Hsid. reflexivity.
  - intros err Hservice. run_route.
    rewrite Hto, Htruthy. cbn -[get]. rewrite Hservice. reflexivity.
Qed.

(** X18: [/make-outbound-call] throws without answering only when the
    request has no body ([undefined] or [null]), and then before Twilio is
    asked; in every other case it answers, with status 200, 400 or 500. *)
Theorem outbound_call_answers
  (env : Env) (service : request -> settled) (req_body : value) (w : World) :
  match req_body with
  | undefined | J JNull =>
      make_outbound_call env service req_body w = (inl (Thrown TypeError), w)
  | _ =>
      exists r, fst (make_outbound_call env service req_body w) = inr r
                /\ (status r = 200 \/ status r = 400 \/ status r = 500)%N
  end.
Proof.
  assert (Hanswers : forall to,
    get req_body "to" = inr to ->
    exists r, fst (make_outbound_call env service req_body w) = inr r
              /\ (status r = 200 \/ status r = 400 \/ status r = 500)%N).
  { intros to Hto. run_route. rewrite Hto.
    destruct (ToBoolean to); cbn -[get]; [|eexists; split; [reflexivity | auto]].
    destruct (service _) as [created|err]; [|eexists; split; [reflexivity | auto]].
    destruct (get (J created) "sid") as [e|[|sid]];
      try (eexists; split; [reflexivity | auto]).
    cbn -[get]. destruct (ToString_throws sid); eexists; split; try reflexivity; auto. }
  destruct req_body as [|[]]; try reflexivity; eapply Hanswers; reflexivity.
Qed.

(** X19: [/call] posts [{to}] once to [PUBLIC_URL/make-outbound-call] and
    writes nothing to the console.  It answers 200 with the data it got
    back, and 500 with the fixed body [{message: "Failed to initiate
    call"}] whatever the failure was: the status and the body of an
    error answer are not passed on. *)
Theorem call_forwards_to_outbound_route
  (env : Env) (service : request -> settled) (req_body to : value) (w : World) :
  get req_body "to" = inr to ->
  snd (call env service req_body w) =
    {| requests :=
         requests w
           ++ [AxiosPost (PUBLIC_URL env ++ "/make-outbound-call")%string
                 (JSON_stringify [("to", to)])];
       console := console w |}
  /\ (forall data,
        service (AxiosPost (PUBLIC_URL env ++ "/make-outbound-call")%string
                   (JSON_stringify [("to", to)])) = Resolved data ->
        fst (call env service req_body w) = inr (respond 200 data))
  /\ (forall err,
        service (AxiosPost (PUBLIC_URL env ++ "/make-outbound-call")%string
                   (JSON_stringify [("to", to)])) = Rejected err ->
        fst (call env service req_body w) =
          inr {| status := 500; body := JObj [("message", JStr "Failed to initiate call")] |}).
Proof.
  intros Hto. split; [|split].
  - run_route. rewrite Hto. cbn -[get]. now destruct (service _).
  - intros data Hservice. run_route. rewrite Hto. cbn -[get]. now rewrite Hservice.
  - intros err Hservice. run_route. rewrite Hto. cbn -[get]. now rewrite Hservice.
Qed.

(** What [JSON.stringify({to})] keeps of a falsy [to] is falsy. *)
Lemma forwarded_falsy (to : value) :
  ToBoolean to = false ->
  exists to', get (J (JSON_stringify [("to", to)])) "to" = inr to'
              /\ ToBoolean to' = false.
Proof.
  intros Hfalsy. destruct to as [|[| b | n | text | items | fields]];
    try discriminate; try (eexists; split; [reflexivity | exact Hfalsy]).
  cbn [ToBoolean] in Hfalsy. apply negb_false_iff in Hfalsy.
  cbn [get JSON_stringify defined_properties serialized own_property String.eqb
       Ascii.eqb Bool.eqb].
  destruct (PrimFloat.is_finite n) eqn:Hfinite.
  - destruct (PrimFloat.is_zero n) eqn:Hzero.
    + eexists; split; reflexivity.
    + unfold PrimFloat.is_finite in Hfinite. cbn [orb] in Hfalsy.
      rewrite Hfalsy in Hfinite. discriminate.
  - eexists; split; reflexivity.
Qed.

(** The route [/call] posts to answers the request of this server itself. *)
Lemma looped_back_make_outbound_call
  (env : Env) (outside : request -> settled) (data : json) :
  looped_back env outside
    (AxiosPost (PUBLIC_URL env ++ "/make-outbound-call")%string data)
  = match fst (make_outbound_call env outside (J data) quiet) with
    | inr answer => axios_outcome (status answer) (body answer)
    | inl _ => Rejected (HttpError 500 (JStr "Internal Server Error"))
    end.
Proof. unfold looped_back. now rewrite String.eqb_refl. Qed.

(** X20: how the two routes compose when [/call] reaches this server.  When
    [to] is missing or falsy, [/call] posts [{to}] all the same,
    [/make-outbound-call] answers that body with 400 "Phone number
    required" and asks nothing of Twilio, [axios] rejects the 400, and
    [/call] answers 500 [{message: "Failed to initiate call"}]: its client
    never sees "Phone number required". *)
Theorem call_hides_missing_number
  (env : Env) (outside : request -> settled) (req_body to : value) (w : World) :
  get req_body "to" = inr to ->
  ToBoolean to = false ->
  call env (looped_back env outside) req_body w =
    (inr {| status := 500; body := JObj [("message", JStr "Failed to initiate call")] |},
     {| requests :=
          requests w
            ++ [AxiosPost (PUBLIC_URL env ++ "/make-outbound-call")%string
                  (JSON_stringify [("to", to)])];
        console := console w |})
  /\ looped_back env outside
       (AxiosPost (PUBLIC_URL env ++ "/make-outbound-call")%string
          (JSON_stringify [("to", to)]))
     = Rejected (HttpError 400 (JObj [("error", JStr "Phone number required")]))
  /\ (forall w',
        make_outbound_call env outside (J (JSON_stringify [("to", to)])) w' =
          (inr {| status := 400;
                  body := JObj [("error", JStr "Phone number required")] |}, w')).
Proof.
  intros Hto Hfalsy.
  assert (Hinner : forall w',
    make_outbound_call env outside (J (JSON_stringify [("to", to)])) w' =
      (inr {| status := 400;
              body := JObj [("error", JStr "Phone number required")] |}, w')).
  { intros w'. destruct (forwarded_falsy to Hfalsy) as (to' & Hto' & Hfalsy').
    run_route. rewrite Hto', Hfalsy'. reflexivity. }
  assert (Hloop :
    looped_back env outside
      (AxiosPost (PUBLIC_URL env ++ "/make-outbound-call")%string
         (JSON_stringify [("to", to)]))
    = Rejected (HttpError 400 (JObj [("error", JStr "Phone number required")]))).
  { rewrite looped_back_make_outbound_call, Hinner. reflexivity. }
  split; [|split; [exact Hloop | exact Hinner]].
  unfold call, try_catch, bind, ret, js, await. rewrite Hto.
  cbn -[get looped_back PUBLIC_URL String.append JSON_stringify].
  rewrite Hloop. reflexivity.
Qed.

(** X21: how the two routes compose on success when [/call] reaches this
    server.  For a non-empty string [to], [/call] posts [{to}],
    [/make-outbound-call] asks Twilio for a call to that very string, and
    when Twilio creates the call with the identifier [sid] it answers 200
    [{message: "Call initiated", callSid: sid}]; [axios] resolves with that
    body and [/call] answers 200 with the same body. *)
Theorem call_returns_outbound_answer
  (env : Env) (outside : request -> settled) (req_body : value)
  (c : ascii) (number sid : string) (created : json) (w : World) :
  get req_body "to" = inr (J (JStr (String c number))) ->
  outside (TwilioCallsCreate (PUBLIC_URL env ++ "/incoming-call-eleven")%string
             (J (JStr (String c number))) (TWILIO_PHONE_NUMBER env)) = Resolved created ->
  get (J created) "sid" = inr (J (JStr sid)) ->
  call env (looped_back env outside) req_body w =
    (inr {| status := 200;
            body := JObj [("message", JStr "Call initiated"); ("callSid", JStr sid)] |},
     {| requests :=
          requests w
            ++ [AxiosPost (PUBLIC_URL env ++ "/make-outbound-call")%string
                  (JObj [("to", JStr (String c number))])];
        console := console w |})
  /\ (forall w',
        make_outbound_call env outside
          (J (JObj [("to", JStr (String c number))])) w' =
          (inr {| status := 200;
                  body := JObj [("message", JStr "Call initiated");
                                ("callSid", JStr sid)] |},
           {| requests :=
                requests w'
                  ++ [TwilioCallsCreate
                        (PUBLIC_URL env ++ "/incoming-call-eleven")%string
                        (J (JStr (String c number))) (TWILIO_PHONE_NUMBER env)];
              console :=
                console w'
                  ++ [console_log "[Twilio] Outbound call initiated: "
                        (J (JStr sid))] |})).
Proof.
  intros Hto Hservice Hsid.
  assert (Hinner : forall w',
    make_outbound_call env outside (J (JObj [("to", JStr (String c number))])) w' =
      (inr {| status := 200;
              body := JObj [("message", JStr "Call initiated");
                            ("callSid", JStr sid)] |},
       {| requests :=
            requests w'
              ++ [TwilioCallsCreate
                    (PUBLIC_URL env ++ "/incoming-call-eleven")%string
                    (J (JStr (String c number))) (TWILIO_PHONE_NUMBER env)];
          console :=
            console w'
              ++ [console_log "[Twilio] Outbound call initiated: "
                    (J (JStr sid))] |})).
  { intros w'.
    assert (Hforwarded :
      get (J (JObj [("to", JStr (String c number))])) "to"
      = inr (J (JStr (String c number)))) by reflexivity.
    run_route. rewrite Hforwarded. cbn -[get PUBLIC_URL String.append].
    rewrite Hservice, Hsid. reflexivity. }
  split; [|exact Hinner].
  assert (Hloop :
    looped_back env outside
      (AxiosPost (PUBLIC_URL env ++ "/make-outbound-call")%string
         (JObj [("to", JStr (String c number))]))
    = Resolved (JObj [("message", JStr "Call initiated"); ("callSid", JStr sid)])).
  { rewrite looped_back_make_outbound_call, Hinner. reflexivity. }
  unfold call, try_catch, bind, ret, js, await. rewrite Hto.
  change (JSON_stringify [("to", J (JStr (String c number)))])
    with (JObj [("to", JStr (String c number))]).
  cbn -[get looped_back PUBLIC_URL String.append].
  rewrite Hloop. reflexivity.
Qed.

(** A string is spread by code unit: two properties for [aé], and the two
    surrogates for a character outside the basic plane. *)
Example string_spread_by_code_unit :
  own_properties (JStr "aé") = [("0", JStr "a"); ("1", JStr "é")]
  /\ map fst (own_properties (JStr "😀")) = ["0"; "1"]
  /\ optional_first (J (JStr "éa")) = J (JStr "é").
Proof. repeat split. Qed.

(** *** The analysis routes *)

Lemma silent_bind {A B : Type} (c : H A) (k : A -> H B) :
  silent c -> (forall a, silent (k a)) -> silent (bind c k).
Proof.
  intros Hc Hk w. unfold bind. specialize (Hc w).
  destruct (c w) as [[err|a] w']; cbn in *; [exact Hc|].
  subst w'. apply Hk.
Qed.

Lemma silent_parseFloat_property
  (parseFloat_of : value -> float) (req_body : value) (k : string) :
  silent (parseFloat_property parseFloat_of req_body k).
Proof.
  intros w. unfold parseFloat_property, bind, js, ret.
  destruct (get req_body k) as [e|[|j]]; try reflexivity.
  destruct (ToString_throws j); reflexivity.
Qed.

(** Reading the seven numbers of a request asks nothing and writes
    nothing. *)
Lemma silent_mappedData (parseFloat_of : value -> float) (req_body : value) :
  silent (mappedData parseFloat_of req_body).
Proof.
  unfold mappedData.
  repeat (apply silent_bind; [apply silent_parseFloat_property | intros ?]).
  intros w. reflexivity.
Qed.

Lemma mappedData_run
  (parseFloat_of : value -> float) (req_body : value) (w : World)
  (r : error + json) :
  fst (mappedData parseFloat_of req_body w) = r ->
  mappedData parseFloat_of req_body w = (r, w).
Proof.
  intros <-. rewrite <- (silent_mappedData parseFloat_of req_body w) at 3.
  apply surjective_pairing.
Qed.

Section Analysis.

Variable env : Env.
Variable service : request -> settled.
Variable parseFloat_of : value -> float.

(** What [/api/analyze] answers once the prediction service has answered
    with data that is not [null]. *)
Lemma api_analyze_answer (req_body : value) (w : World) (mapped data : json) :
  fst (mappedData parseFloat_of req_body w) = inr mapped ->
  service (AxiosPost (interpolated (PYTHON_API_URL env) ++ "/predict")%string mapped)
    = Resolved data ->
  data <> JNull ->
  fst (api_analyze env service parseFloat_of req_body w) =
    inr (respond 200
           (JObj
              (set_property "note"
                 (if is_set (GEMINI_API_KEY env)
                  then
                    match service (GeminiPost gemini_2_0_url (GEMINI_API_KEY env)
                                     (geminiInput (without "charts" (own_properties data))))
                    with
                    | Resolved geminiData =>
                        or_else (candidate_text geminiData) (JStr "No analysis from Gemini.")
                    | Rejected _ => JStr "Gemini analysis unavailable."
                    end
                  else JStr "Gemini API key not configured.")
                 (without "charts" (own_properties data)))))
  /\ requests (snd (api_analyze env service parseFloat_of req_body w)) =
       requests w
         ++ AxiosPost (interpolated (PYTHON_API_URL env) ++ "/predict")%string mapped
         :: (if is_set (GEMINI_API_KEY env)
             then [GeminiPost gemini_2_0_url (GEMINI_API_KEY env)
                     (geminiInput (without "charts" (own_properties data)))]
             else []).
Proof.
  intros Hmapped Hservice Hdata.
  assert (Hrest : rest_without_charts data = inr (without "charts" (own_properties data)))
    by (destruct data; try reflexivity; contradiction).
  run_route. rewrite (mappedData_run _ _ _ _ Hmapped). cbn [fst snd requests console].
  rewrite Hservice, Hrest.
  destruct (is_set (GEMINI_API_KEY env)); cbn [fst snd requests console].
  - destruct (service (GeminiPost _ _ _)); cbn [fst snd requests console];
      split; try reflexivity; now rewrite <- app_assoc.
  - split; reflexivity.
Qed.

(** X22: [/api/analyze] always answers, also when the request has no body:
    with status 200, or with status 500 and the fixed body
    [{error: "Failed to fetch analysis results"}]. *)
Theorem api_analyze_always_answers (req_body : value) (w : World) :
  exists r,
    fst (api_analyze env service parseFloat_of req_body w) = inr r
    /\ (status r = 200%N
        \/ r = {| status := 500;
                  body := JObj [("error", JStr "Failed to fetch analysis results")] |}).
Proof.
  run_route.
  destruct (mappedData parseFloat_of req_body w) as [[err|mapped] w1];
    [eexists; split; [reflexivity | now right]|].
  cbn [fst snd requests console].
  destruct (service (AxiosPost _ _)) as [data|err];
    [|eexists; split; [reflexivity | now right]].
  destruct (rest_without_charts data) as [e|pythonText];
    [eexists; split; [reflexivity | now right]|].
  destruct (is_set (GEMINI_API_KEY env)); cbn [fst snd requests console];
    [destruct (service (GeminiPost _ _ _))|]; eexists; split; try reflexivity; now left.
Qed.

(** X23: whenever the prediction service answers with data that is not
    [null], [/api/analyze] answers 200 with an object that has a [note]
    and has no [charts], whatever the data held and whatever the
    generative service did. *)
Theorem api_analyze_drops_charts_adds_note
  (req_body : value) (w : World) (mapped data : json) :
  fst (mappedData parseFloat_of req_body w) = inr mapped ->
  service (AxiosPost (interpolated (PYTHON_API_URL env) ++ "/predict")%string mapped)
    = Resolved data ->
  data <> JNull ->
  exists fields,
    fst (api_analyze env service parseFloat_of req_body w) =
      inr {| status := 200; body := JObj fields |}
    /\ has_own_property "charts" fields = false
    /\ has_own_property "note" fields = true.
Proof.
  intros Hmapped Hservice Hdata.
  destruct (api_analyze_answer req_body w mapped data Hmapped Hservice Hdata) as [-> _].
  eexists. split; [reflexivity|]. split.
  - apply has_own_property_iff.
    rewrite own_property_serialized, own_property_set_property, own_property_without.
    reflexivity.
  - destruct (has_own_property "note" _) eqn:Hnote; [reflexivity|].
    apply has_own_property_iff in Hnote.
    rewrite own_property_serialized, own_property_set_property in Hnote. discriminate.
Qed.

(** X24: apart from [charts] and [note], [/api/analyze] passes the own
    properties of the prediction service's data on: the answer has
    property [k] exactly when the data has it, with its value as
    [JSON.stringify] writes it (so a number that is not finite is passed
    on as [null]).  The own properties of an object are its entries, those
    of an array its elements and those of a string its code units, under
    their indices. *)
Theorem api_analyze_passes_properties_on
  (req_body : value) (w : World) (mapped data : json) (k : string) :
  fst (mappedData parseFloat_of req_body w) = inr mapped ->
  service (AxiosPost (interpolated (PYTHON_API_URL env) ++ "/predict")%string mapped)
    = Resolved data ->
  data <> JNull ->
  k <> "charts" ->
  k <> "note" ->
  exists fields,
    fst (api_analyze env service parseFloat_of req_body w) =
      inr {| status := 200; body := JObj fields |}
    /\ own_property k fields =
         match own_property k (own_properties data) with
         | J j => J (serialized j)
         | undefined => undefined
         end
    /\ (forall entries,
          data = JObj entries ->
          own_property k fields =
            match own_property k entries with
            | J j => J (serialized j)
            | undefined => undefined
            end).
Proof.
  intros Hmapped Hservice Hdata Hcharts Hnote.
  destruct (api_analyze_answer req_body w mapped data Hmapped Hservice Hdata) as [-> _].
  assert (Hk :
    own_property k
      (map (fun kv => (fst kv, serialized (snd kv)))
         (set_property "note"
            (if is_set (GEMINI_API_KEY env)
             then
               match service (GeminiPost gemini_2_0_url (GEMINI_API_KEY env)
                                (geminiInput (without "charts" (own_properties data)))) with
               | Resolved geminiData =>
                   or_else (candidate_text geminiData) (JStr "No analysis from Gemini.")
               | Rejected _ => JStr "Gemini analysis unavailable."
               end
             else JStr "Gemini API key not configured.")
            (without "charts" (own_properties data))))
    = match own_property k (own_properties data) with
      | J j => J (serialized j)
      | undefined => undefined
      end).
  { rewrite own_property_serialized, own_property_set_property, own_property_without.
    destruct (String.eqb k "note") eqn:Hn; [apply String.eqb_eq in Hn; contradiction|].
    destruct (String.eqb "charts" k) eqn:Hc; [apply String.eqb_eq in Hc; now subst|].
    reflexivity. }
  eexists. split; [reflexivity|]. split; [exact Hk|].
  intros entries ->. exact Hk.
Qed.

(** X25: without a key for the generative service (unset or empty),
    [/api/analyze] does not ask it: the prediction service is the only
    one asked, and the note of the answer says that the key is not
    configured. *)
Theorem api_analyze_without_key
  (req_body : value) (w : World) (mapped data : json) :
  is_set (GEMINI_API_KEY env) = false ->
  fst (mappedData parseFloat_of req_body w) = inr mapped ->
  service (AxiosPost (interpolated (PYTHON_API_URL env) ++ "/predict")%string mapped)
    = Resolved data ->
  data <> JNull ->
  fst (api_analyze env service parseFloat_of req_body w) =
    inr (respond 200
           (JObj (set_property "note" (JStr "Gemini API key not configured.")
                    (without "charts" (own_properties data)))))
  /\ requests (snd (api_analyze env service parseFloat_of req_body w)) =
       requests w
         ++ [AxiosPost (interpolated (PYTHON_API_URL env) ++ "/predict")%string mapped].
Proof.
  intros Hkey Hmapped Hservice Hdata.
  destruct (api_analyze_answer req_body w mapped data Hmapped Hservice Hdata)
    as [Hanswer Hrequests].
  rewrite Hkey in Hanswer, Hrequests. now split.
Qed.

(** X26: a failure of the generative service does not fail
    [/api/analyze]: the answer is still 200 with the prediction service's
    data, and its note says the analysis is unavailable.  When the
    generative service answers without a text, the note says so. *)
Theorem api_analyze_survives_gemini
  (req_body : value) (w : World) (mapped data : json) :
  is_set (GEMINI_API_KEY env) = true ->
  fst (mappedData parseFloat_of req_body w) = inr mapped ->
  service (AxiosPost (interpolated (PYTHON_API_URL env) ++ "/predict")%string mapped)
    = Resolved data ->
  data <> JNull ->
  (forall err,
     service (GeminiPost gemini_2_0_url (GEMINI_API_KEY env)
                (geminiInput (without "charts" (own_properties data)))) = Rejected err ->
     fst (api_analyze env service parseFloat_of req_body w) =
       inr (respond 200
              (JObj (set_property "note" (JStr "Gemini analysis unavailable.")
                       (without "charts" (own_properties data))))))
  /\ (forall geminiData,
        service (GeminiPost gemini_2_0_url (GEMINI_API_KEY env)
                   (geminiInput (without "charts" (own_properties data))))
        = Resolved geminiData ->
        ToBoolean (candidate_text geminiData) = false ->
        fst (api_analyze env service parseFloat_of req_body w) =
          inr (respond 200
                 (JObj (set_property "note" (JStr "No analysis from Gemini.")
                          (without "charts" (own_properties data)))))).
Proof.
  intros Hkey Hmapped Hservice Hdata.
  destruct (api_analyze_answer req_body w mapped data Hmapped Hservice Hdata)
    as [Hanswer _].
  rewrite Hkey in Hanswer. split.
  - intros err Hgemini. now rewrite Hgemini in Hanswer.
  - intros geminiData Hgemini Hfalsy. rewrite Hgemini in Hanswer.
    rewrite Hanswer. unfold or_else. rewrite Hfalsy.
    now destruct (candidate_text geminiData).
Qed.

(** X27: when the prediction service fails, or answers [null],
    [/api/analyze] answers 500 with its fixed body and the generative
    service is not asked. *)
Theorem api_analyze_prediction_failure
  (req_body : value) (w : World) (mapped : json) :
  fst (mappedData parseFloat_of req_body w) = inr mapped ->
  match service (AxiosPost (interpolated (PYTHON_API_URL env) ++ "/predict")%string mapped)
  with
  | Resolved data => data = JNull
  | Rejected _ => True
  end ->
  fst (api_analyze env service parseFloat_of req_body w) =
    inr {| status := 500;
           body := JObj [("error", JStr "Failed to fetch analysis results")] |}
  /\ requests (snd (api_analyze env service parseFloat_of req_body w)) =
       requests w
         ++ [AxiosPost (interpolated (PYTHON_API_URL env) ++ "/predict")%string mapped].
Proof.
  intros Hmapped Hfailure.
  run_route. rewrite (mappedData_run _ _ _ _ Hmapped). cbn [fst snd requests console].
  destruct (service (AxiosPost _ _)) as [data|err]; [subst data|]; split; reflexivity.
Qed.

(** What [/analyze] of the earlier revision answers once both services
    have answered. *)
Lemma analyze_answer
  (req_body : value) (w : World) (mapped data geminiData : json) (found : value) :
  fst (mappedData parseFloat_of req_body w) = inr mapped ->
  service (AxiosPost "http://127.0.0.1:5001/predict" mapped) = Resolved data ->
  get (J data) "charts" = inr found ->
  service (GeminiPost gemini_1_5_url (GEMINI_API_KEY env)
             (serialized (JObj (without "charts" (own_properties data)))))
    = Resolved geminiData ->
  analyze env service parseFloat_of req_body w =
    (inr (respond 200
            (JObj
               (set_property "charts" (or_else found JNull)
                  (set_property "note" (or_else (candidate_text geminiData) (JStr ""))
                     (without "charts" (own_properties data)))))),
     {| requests :=
          requests w
            ++ [AxiosPost "http://127.0.0.1:5001/predict" mapped;
                GeminiPost gemini_1_5_url (GEMINI_API_KEY env)
                  (serialized (JObj (without "charts" (own_properties data))))];
        console := console w |}).
Proof.
  intros Hmapped Hservice Hcharts Hgemini.
  run_route. rewrite (mappedData_run _ _ _ _ Hmapped). cbn [fst snd requests console].
  rewrite Hservice, Hcharts. cbn [fst snd requests console].
  rewrite Hgemini. cbn [fst snd requests console].
  now rewrite <- app_assoc.
Qed.

(** X28: [/analyze] of the earlier revision relays an error answer of a
    service: when the prediction service or the generative service answers
    with a status outside 2xx, the client gets that status and that body;
    any other failure gives 500 with a fixed body. *)
Theorem analyze_relays_http_errors
  (req_body : value) (w : World) (mapped : json) :
  fst (mappedData parseFloat_of req_body w) = inr mapped ->
  (forall code answer,
     service (AxiosPost "http://127.0.0.1:5001/predict" mapped)
     = Rejected (HttpError code answer) ->
     fst (analyze env service parseFloat_of req_body w) = inr (respond code answer))
  /\ (forall data found code answer,
        service (AxiosPost "http://127.0.0.1:5001/predict" mapped) = Resolved data ->
        get (J data) "charts" = inr found ->
        service (GeminiPost gemini_1_5_url (GEMINI_API_KEY env)
                   (serialized (JObj (without "charts" (own_properties data)))))
        = Rejected (HttpError code answer) ->
        fst (analyze env service parseFloat_of req_body w) = inr (respond code answer))
  /\ (forall message,
        service (AxiosPost "http://127.0.0.1:5001/predict" mapped)
        = Rejected (Failure message) ->
        fst (analyze env service parseFloat_of req_body w) =
          inr {| status := 500;
                 body := JObj [("error", JStr "Failed to connect to Python or Gemini")] |}).
Proof.
  intros Hmapped. split; [|split].
  - intros code answer Hservice. run_route.
    rewrite (mappedData_run _ _ _ _ Hmapped). cbn [fst snd requests console].
    now rewrite Hservice.
  - intros data found code answer Hservice Hcharts Hgemini. run_route.
    rewrite (mappedData_run _ _ _ _ Hmapped). cbn [fst snd requests console].
    rewrite Hservice, Hcharts. cbn [fst snd requests console].
    now rewrite Hgemini.
  - intros message Hservice. run_route.
    rewrite (mappedData_run _ _ _ _ Hmapped). cbn [fst snd requests console].
    now rewrite Hservice.
Qed.

(** X29: when both services answer, [/analyze] of the earlier revision
    answers 200 with an object that always has [charts] (the data's, or
    [null] when the data has none) and a [note]; the generative service is
    asked with whatever key the environment has, also with none. *)
Theorem analyze_keeps_charts
  (req_body : value) (w : World) (mapped data geminiData : json) (found : value) :
  fst (mappedData parseFloat_of req_body w) = inr mapped ->
  service (AxiosPost "http://127.0.0.1:5001/predict" mapped) = Resolved data ->
  get (J data) "charts" = inr found ->
  service (GeminiPost gemini_1_5_url (GEMINI_API_KEY env)
             (serialized (JObj (without "charts" (own_properties data)))))
    = Resolved geminiData ->
  exists fields,
    fst (analyze env service parseFloat_of req_body w) =
      inr {| status := 200; body := JObj fields |}
    /\ own_property "charts" fields = J (serialized (or_else found JNull))
    /\ own_property "note" fields
       = J (serialized (or_else (candidate_text geminiData) (JStr "")))
    /\ requests (snd (analyze env service parseFloat_of req_body w)) =
         requests w
           ++ [AxiosPost "http://127.0.0.1:5001/predict" mapped;
               GeminiPost gemini_1_5_url (GEMINI_API_KEY env)
                 (serialized (JObj (without "charts" (own_properties data))))].
Proof.
  intros Hmapped Hservice Hcharts Hgemini.
  rewrite (analyze_answer req_body w mapped data geminiData found
             Hmapped Hservice Hcharts Hgemini).
  eexists. split; [reflexivity|]. split; [|split; [|reflexivity]].
  - now rewrite own_property_serialized, own_property_set_property.
  - rewrite own_property_serialized, !own_property_set_property. reflexivity.
Qed.

End Analysis.

(** *** Closed instances *)

Lemma outbound_call_needs_number_witness :
  make_outbound_call example_env example_service (J (JObj [("to", JStr "")])) quiet =
    (inr {| status := 400; body := JObj [("error", JStr "Phone number required")] |},
     quiet)
  /\ make_outbound_call example_env example_service (J (JObj [])) quiet =
    (inr {| status := 400; body := JObj [("error", JStr "Phone number required")] |},
     quiet).
Proof.
  split.
  - apply (outbound_call_needs_number example_env example_service
             (J (JObj [("to", JStr "")])) (J (JStr "")) quiet eq_refl eq_refl).
  - apply (outbound_call_needs_number example_env example_service
             (J (JObj [])) undefined quiet eq_refl eq_refl).
Defined.

Lemma outbound_call_asks_twilio_witness :
  requests (snd (make_outbound_call example_env example_service
                   (J (JObj [("to", JStr "+15550123")])) quiet)) =
    [TwilioCallsCreate "https://e-t-backend.onrender.com:3000/incoming-call-eleven"
       (J (JStr "+15550123")) (Some "+15550100")].
Proof.
  apply (outbound_call_asks_twilio example_env example_service
           (J (JObj [("to", JStr "+15550123")])) (J (JStr "+15550123")) quiet
           eq_refl eq_refl).
Defined.

Lemma call_forwards_to_outbound_route_witness :
  snd (call example_env example_service (J (JObj [("to", JStr "+15550123")])) quiet) =
    {| requests :=
         [AxiosPost "https://e-t-backend.onrender.com:3000/make-outbound-call"
            (JObj [("to", JStr "+15550123")])];
       console := [] |}.
Proof.
  apply (call_forwards_to_outbound_route example_env example_service
           (J (JObj [("to", JStr "+15550123")])) (J (JStr "+15550123")) quiet eq_refl).
Defined.

Lemma call_hides_missing_number_witness :
  fst (call example_env (looped_back example_env example_service) (J (JObj [])) quiet) =
    inr {| status := 500; body := JObj [("message", JStr "Failed to initiate call")] |}
  /\ fst (call example_env (looped_back example_env example_service)
            (J (JObj [("to", JStr "")])) quiet) =
     inr {| status := 500; body := JObj [("message", JStr "Failed to initiate call")] |}.
Proof.
  split.
  - rewrite (proj1 (call_hides_missing_number example_env example_service
                      (J (JObj [])) undefined quiet eq_refl eq_refl)).
    reflexivity.
  - rewrite (proj1 (call_hides_missing_number example_env example_service
                      (J (JObj [("to", JStr "")])) (J (JStr "")) quiet
                      eq_refl eq_refl)).
    reflexivity.
Defined.

Lemma call_returns_outbound_answer_witness :
  fst (call example_env (looped_back example_env example_service)
         (J (JObj [("to", JStr "+15550123")])) quiet) =
    inr {| status := 200;
           body := JObj [("message", JStr "Call initiated"); ("callSid", JStr "CA42")] |}.
Proof.
  rewrite (proj1 (call_returns_outbound_answer example_env example_service
                    (J (JObj [("to", JStr "+15550123")])) "+"%char "15550123" "CA42"
                    (JObj [("sid", JStr "CA42")]) quiet eq_refl eq_refl eq_refl)).
  reflexivity.
Defined.

Lemma api_analyze_drops_charts_adds_note_witness :
  exists fields,
    fst (api_analyze example_env example_service parseFloat_zero sensor_body quiet) =
      inr {| status := 200; body := JObj fields |}
    /\ has_own_property "charts" fields = false
    /\ has_own_property "note" fields = true.
Proof.
  eapply (api_analyze_drops_charts_adds_note example_env example_service
            parseFloat_zero sensor_body quiet _ prediction eq_refl eq_refl).
  discriminate.
Defined.

Lemma api_analyze_passes_properties_on_witness :
  exists fields,
    fst (api_analyze example_env example_service parseFloat_zero sensor_body quiet) =
      inr {| status := 200; body := JObj fields |}
    /\ own_property "predicted_product" fields = J (JStr "Triphala").
Proof.
  destruct (api_analyze_passes_properties_on example_env example_service
              parseFloat_zero sensor_body quiet
              (JObj [("ph", JNum PrimFloat.zero); ("tds", JNum PrimFloat.zero);
                     ("orp", JNum PrimFloat.zero); ("r", JNum PrimFloat.zero);
                     ("g", JNum PrimFloat.zero); ("b", JNum PrimFloat.zero);
                     ("bme688", JNum PrimFloat.zero)])
              prediction "predicted_product" eq_refl eq_refl)
    as (fields & Hanswer & Hk & _); try discriminate.
  exists fields. split; [exact Hanswer | exact Hk].
Defined.

Lemma api_analyze_without_key_witness :
  requests (snd (api_analyze env_without_key example_service parseFloat_zero
                   sensor_body quiet)) =
    [AxiosPost "http://python:5001/predict"
       (JObj [("ph", JNum PrimFloat.zero); ("tds", JNum PrimFloat.zero);
              ("orp", JNum PrimFloat.zero); ("r", JNum PrimFloat.zero);
              ("g", JNum PrimFloat.zero); ("b", JNum PrimFloat.zero);
              ("bme688", JNum PrimFloat.zero)])].
Proof.
  eapply (api_analyze_without_key env_without_key example_service parseFloat_zero
            sensor_body quiet _ prediction eq_refl eq_refl eq_refl).
  discriminate.
Defined.

Lemma api_analyze_survives_gemini_witness :
  fst (api_analyze example_env example_service parseFloat_zero sensor_body quiet) =
    inr {| status := 200;
           body := JObj [("predicted_product", JStr "Triphala");
                         ("overall_match", JStr "92%");
                         ("note", JStr "Gemini analysis unavailable.")] |}.
Proof.
  eapply (proj1 (api_analyze_survives_gemini example_env example_service parseFloat_zero
                   sensor_body quiet _ prediction eq_refl eq_refl eq_refl _)
            (Failure "timeout of 10000ms exceeded") eq_refl).
  Unshelve. discriminate.
Defined.

Lemma api_analyze_prediction_failure_witness :
  fst (api_analyze example_env unavailable_service parseFloat_zero sensor_body quiet) =
    inr {| status := 500;
           body := JObj [("error", JStr "Failed to fetch analysis results")] |}.
Proof.
  eapply (api_analyze_prediction_failure example_env unavailable_service parseFloat_zero
            sensor_body quiet _ eq_refl I).
Defined.

Lemma analyze_relays_http_errors_witness :
  fst (analyze example_env unavailable_service parseFloat_zero sensor_body quiet) =
    inr {| status := 503; body := JObj [("detail", JStr "Service Unavailable")] |}.
Proof.
  eapply (proj1 (analyze_relays_http_errors example_env unavailable_service
                   parseFloat_zero sensor_body quiet _ eq_refl)
            503%N (JObj [("detail", JStr "Service Unavailable")]) eq_refl).
Defined.

Lemma analyze_keeps_charts_witness :
  exists fields,
    fst (analyze env_without_key answering_service parseFloat_zero sensor_body quiet) =
      inr {| status := 200; body := JObj fields |}
    /\ own_property "charts" fields = J (JStr "iVBORw0KGgo=")
    /\ own_property "note" fields = J (JStr "Safe.").
Proof.
  destruct (analyze_keeps_charts env_without_key answering_service parseFloat_zero
              sensor_body quiet _ prediction _ (J (JStr "iVBORw0KGgo="))
              eq_refl eq_refl eq_refl eq_refl) as (fields & H & Hcharts & Hnote & _).
  exists fields. repeat split; assumption.
Defined.

End RoutesFacts.
